(** * Universal notes generator: a shallow embedding of [practical.py]

    The program is a straight-line pipeline around external services
    (transcript API, HTTP, HTML parser, OCR engine, chat-completion endpoint,
    PDF renderer).  Python strings are sequences of Unicode code points, calls
    to the outside world are recorded in a trace, and Python exceptions are
    explicit results. *)

From Stdlib Require Import String Ascii List NArith ZArith Bool Arith Lia.
From Stdlib Require QArith.
Import ListNotations.

(** ** Python strings *)

(** A Python [str] is a sequence of code points. *)
Definition codepoint := N.
Definition pystr := list codepoint.

Definition ch (a : ascii) : codepoint := N_of_ascii a.

(** An ASCII literal as a Python string. *)
Definition str (s : string) : pystr := map ch (list_ascii_of_string s).

Definition nl : codepoint := 10%N.

(** [s.startswith(p)] *)
Fixpoint startswith (p s : pystr) : bool :=
  match p, s with
  | [], _ => true
  | _ :: _, [] => false
  | a :: p', b :: s' => N.eqb a b && startswith p' s'
  end.

(** [sub in s] *)
Fixpoint contains (sub s : pystr) : bool :=
  startswith sub s ||
  match s with
  | [] => false
  | _ :: t => contains sub t
  end.

(** [sep.join(parts)] *)
Fixpoint join (sep : pystr) (parts : list pystr) : pystr :=
  match parts with
  | [] => []
  | [p] => p
  | p :: rest => p ++ sep ++ join sep rest
  end.

(** [s.split(c)] for a one-character separator [c]. *)
Fixpoint split (c : codepoint) (s : pystr) : list pystr :=
  match s with
  | [] => [[]]
  | x :: t =>
      if N.eqb x c then [] :: split c t
      else match split c t with
           | h :: r => (x :: h) :: r
           | [] => [[x]]
           end
  end.

(** [s.count(c)] for a one-character [c]. *)
Definition count (c : codepoint) (s : pystr) : nat :=
  length (filter (N.eqb c) s).

(** The code points [str.isspace] accepts, which [str.strip()] removes. *)
Definition isspace (c : codepoint) : bool :=
  ((9 <=? c) && (c <=? 13) || (28 <=? c) && (c <=? 32) ||
   (c =? 133) || (c =? 160) || (c =? 5760) ||
   (8192 <=? c) && (c <=? 8202) || (c =? 8232) || (c =? 8233) ||
   (c =? 8239) || (c =? 8287) || (c =? 12288))%N.

Fixpoint lstrip (s : pystr) : pystr :=
  match s with
  | [] => []
  | x :: t => if isspace x then lstrip t else s
  end.

Definition rstrip (s : pystr) : pystr := rev (lstrip (rev s)).

(** [s.strip()] *)
Definition strip (s : pystr) : pystr := lstrip (rstrip s).

(** A code point that [encode('latin-1')] accepts. *)
Definition is_latin1 (c : codepoint) : bool := (c <=? 255)%N.

(** A URL with a scheme: a letter, then letters, digits, "+", "-" or ".",
    then a colon. *)
Definition is_alpha (c : codepoint) : bool :=
  ((65 <=? c) && (c <=? 90) || (97 <=? c) && (c <=? 122))%N.

Definition is_scheme_char (c : codepoint) : bool :=
  (is_alpha c || (48 <=? c) && (c <=? 57) || (c =? 43) || (c =? 45) || (c =? 46))%N.

Fixpoint scheme_rest (s : pystr) : bool :=
  match s with
  | [] => false
  | c :: t => if N.eqb c 58 then true
              else if is_scheme_char c then scheme_rest t else false
  end.

Definition is_absolute (url : pystr) : bool :=
  match url with
  | [] => false
  | c :: t => is_alpha c && scheme_rest t
  end.

(** ** Exceptions and results *)

(** A raised Python exception: whether it is an instance of [Exception]
    (what [except Exception] catches; a bare [except:] catches the others
    too, e.g. [KeyboardInterrupt]), its class name and [str(e)]. *)
Record pyexc := mk_exc {
  exc_is_Exception : bool;
  exc_name : string;
  exc_str : pystr
}.

Inductive result (A : Type) : Type :=
| Return (a : A)
| Raise (e : pyexc).

Arguments Return {A} a.
Arguments Raise {A} e.

Definition UnicodeEncodeError : pyexc :=
  mk_exc true "UnicodeEncodeError" (str "'latin-1' codec can't encode character").

Definition IndexError : pyexc :=
  mk_exc true "IndexError" (str "list index out of range").

(** [s.encode('latin-1')] *)
Definition encode_latin1 (s : pystr) : result (list N) :=
  if forallb is_latin1 s then Return s else Raise UnicodeEncodeError.

(** ** Regular expressions, as [re.search] runs them *)

(** The fragment of Python's pattern syntax the program uses.  A character
    set is a list of inclusive ranges; a single character is a range of
    one. *)
Inductive regex : Type :=
| RChar (c : codepoint)
| RSet (items : list (codepoint * codepoint))
| RSeq (a b : regex)
| RAlt (a b : regex)
| RRepeat (n : nat) (a : regex)
| RGroup (a : regex)
| RNonCap (a : regex).

Definition set_mem (items : list (codepoint * codepoint)) (c : codepoint) : bool :=
  existsb (fun '(lo, hi) => (lo <=? c) && (c <=? hi))%N items.

Fixpoint ngroups (r : regex) : nat :=
  match r with
  | RChar _ | RSet _ => 0
  | RSeq a b | RAlt a b => ngroups a + ngroups b
  | RRepeat _ a | RNonCap a => ngroups a
  | RGroup a => S (ngroups a)
  end.

(** The text a match consumed, given the input it started on and what it
    left. *)
Definition consumed (s rest : pystr) : pystr :=
  firstn (length s - length rest) s.

Definition captures := list (option pystr).

(** [a{n}]: [n] matches of the body in a row; a group inside keeps its last
    capture. *)
Fixpoint rrepeat (k : nat) (body : pystr -> list (captures * pystr))
    (n : nat) (s : pystr) : list (captures * pystr) :=
  match n with
  | O => [(repeat None k, s)]
  | S n' =>
      flat_map
        (fun '(g1, s1) =>
           map (fun '(g2, s2) => (match n' with O => g1 | S _ => g2 end, s2))
               (rrepeat k body n' s1))
        (body s)
  end.

(** All the ways [r] matches a prefix of [s], in the order a backtracking
    matcher tries them: the captured groups and the rest of the input. *)
Fixpoint rmatch (r : regex) (s : pystr) : list (captures * pystr) :=
  match r with
  | RChar c =>
      match s with
      | x :: t => if N.eqb x c then [([], t)] else []
      | [] => []
      end
  | RSet items =>
      match s with
      | x :: t => if set_mem items x then [([], t)] else []
      | [] => []
      end
  | RSeq a b =>
      flat_map
        (fun '(g1, s1) => map (fun '(g2, s2) => (g1 ++ g2, s2)) (rmatch b s1))
        (rmatch a s)
  | RAlt a b =>
      map (fun '(g, s1) => (g ++ repeat None (ngroups b), s1)) (rmatch a s) ++
      map (fun '(g, s1) => (repeat None (ngroups a) ++ g, s1)) (rmatch b s)
  | RRepeat n a => rrepeat (ngroups a) (rmatch a) n s
  | RGroup a => map (fun '(g, s1) => (Some (consumed s s1) :: g, s1)) (rmatch a s)
  | RNonCap a => rmatch a s
  end.

(** A match object: [group(0)] and the numbered groups. *)
Record Match := mk_match {
  m_whole : pystr;
  m_groups : captures
}.

(** [re.search(r, s)]: the first way to match at the leftmost position that
    has one. *)
Fixpoint re_search (r : regex) (s : pystr) : option Match :=
  match rmatch r s with
  | (g, rest) :: _ => Some (mk_match (consumed s rest) g)
  | [] =>
      match s with
      | [] => None
      | _ :: t => re_search r t
      end
  end.

(** [m.group(i)]; [None] for a group that took no part in the match. *)
Definition group (m : Match) (i : nat) : option pystr :=
  match i with
  | O => Some (m_whole m)
  | S j => match nth_error (m_groups m) j with
           | Some g => g
           | None => None
           end
  end.

(** ** Extract YouTube Video ID *)

(** [[0-9A-Za-z_-]] *)
Definition id_chars : list (codepoint * codepoint) :=
  [(ch "0", ch "9"); (ch "A", ch "Z"); (ch "a", ch "z");
   (ch "_", ch "_"); (ch "-", ch "-")].

(** [r"(?:v=|\/)([0-9A-Za-z_-]{11})"] *)
Definition pattern : regex :=
  RSeq (RNonCap (RAlt (RSeq (RChar (ch "v")) (RChar (ch "="))) (RChar (ch "/"))))
       (RGroup (RRepeat 11 (RSet id_chars))).

Definition get_video_id (url : pystr) : option pystr :=
  match re_search pattern url with
  | Some m => group m 1
  | None => None
  end.

(** ** The outside world *)

(** [youtube_transcript_api]: a fetched snippet, a transcript that can be
    fetched, and the list of transcripts of a video. *)
Record FetchedTranscriptSnippet := mk_snippet { text : pystr }.

Record Transcript := mk_transcript {
  fetch : result (list FetchedTranscriptSnippet)
}.

Record TranscriptList := mk_transcript_list {
  find_manually_created_transcript : list pystr -> result Transcript;
  find_generated_transcript : list pystr -> result Transcript
}.

(** [requests]: the [.text] and [.content] of a response. *)
Record Response := mk_response {
  resp_text : pystr;
  resp_content : list N
}.

(** [bs4]: a tag with its attributes in source order. *)
Record Tag := mk_tag { attrs : list (pystr * pystr) }.

Fixpoint pystr_eqb (a b : pystr) : bool :=
  match a, b with
  | [], [] => true
  | x :: a', y :: b' => N.eqb x y && pystr_eqb a' b'
  | _, _ => false
  end.

(** [tag.get(key)] *)
Fixpoint tag_get_attrs (l : list (pystr * pystr)) (key : pystr) : option pystr :=
  match l with
  | [] => None
  | (k, v) :: rest => if pystr_eqb k key then Some v else tag_get_attrs rest key
  end.

Definition tag_get (t : Tag) (key : pystr) : option pystr :=
  tag_get_attrs (attrs t) key.

(** [PIL]: a decoded image. *)
Inductive PILImage : Type := Decoded (pixels : list N).

(** [groq]: a chat-completion request and its response. *)
Record ChatMessage := mk_message { role : pystr; content : pystr }.

Record ChatRequest := mk_request {
  model : pystr;
  messages : list ChatMessage;
  temperature : QArith_base.Q
}.

Record Choice := mk_choice { message_content : pystr }.

Record ChatCompletion := mk_completion { choices : list Choice }.

(** [fpdf]: one [cell] call, and the document the calls build up. *)
Record Cell := mk_cell {
  cell_w : N;
  cell_h : N;
  cell_txt : pystr;
  cell_ln : bool
}.

Record FPDF := mk_fpdf {
  pdf_pages : nat;
  pdf_font : option (pystr * N);
  pdf_cells : list Cell
}.

Definition FPDF_new : FPDF := mk_fpdf 0 None [].
Definition add_page (pdf : FPDF) : FPDF :=
  mk_fpdf (S (pdf_pages pdf)) (pdf_font pdf) (pdf_cells pdf).
Definition set_font (pdf : FPDF) (family : pystr) (size : N) : FPDF :=
  mk_fpdf (pdf_pages pdf) (Some (family, size)) (pdf_cells pdf).
Definition cell (pdf : FPDF) (w h : N) (txt : pystr) (ln : bool) : FPDF :=
  mk_fpdf (pdf_pages pdf) (pdf_font pdf) (pdf_cells pdf ++ [mk_cell w h txt ln]).

(** What the external services and libraries answer.  Each is a function
    of its arguments; a failure is the exception the call raises
    ([find_all_img] is [BeautifulSoup(html, "html.parser").find_all("img")],
    and [urljoin] raises [ValueError] on a reference it cannot split). *)
Record World := mk_world {
  yt_list : pystr -> result TranscriptList;
  article_download : pystr -> result pystr;
  article_parse : pystr -> result pystr;
  requests_get : pystr -> result Response;
  find_all_img : pystr -> result (list Tag);
  urljoin : pystr -> pystr -> result pystr;
  image_open : list N -> result PILImage;
  image_to_string : PILImage -> result pystr;
  completions_create : ChatRequest -> result ChatCompletion;
  pdf_output : FPDF -> result pystr
}.

(** The calls a run makes, in order. *)
Inductive event : Type :=
| CallList (video_id : pystr)
| CallFindManual (languages : list pystr)
| CallFindGenerated (languages : list pystr)
| CallFetch
| StError (msg : pystr)
| CallArticleDownload (url : pystr)
| CallArticleParse
| CallGet (url : pystr)
| CallImageOpen
| CallImageToString
| CallCompletion (req : ChatRequest)
| CallPdfOutput (pdf : FPDF).

(** ** Computations: a result and the trace of calls made *)

Definition M (A : Type) : Type := (result A * list event)%type.

Definition ret {A} (a : A) : M A := (Return a, []).

Definition raise {A} (e : pyexc) : M A := (Raise e, []).

Definition bind {A B} (m : M A) (f : A -> M B) : M B :=
  match m with
  | (Return a, t1) => let (r, t2) := f a in (r, t1 ++ t2)
  | (Raise e, t1) => (Raise e, t1)
  end.

(** An external call: its answer, and the call in the trace. *)
Definition call {A} (ev : event) (r : result A) : M A := (r, [ev]).

(** A library call that reaches nothing outside: its answer, no trace. *)
Definition pure {A} (r : result A) : M A := (r, []).

(** [try: body / except: handler] *)
Definition try_except {A} (body handler : M A) : M A :=
  match body with
  | (Return a, t1) => (Return a, t1)
  | (Raise _, t1) => let (r, t2) := handler in (r, t1 ++ t2)
  end.

(** [try: body / except Exception as e: handler e] *)
Definition try_except_Exception {A} (body : M A) (handler : pyexc -> M A) : M A :=
  match body with
  | (Return a, t1) => (Return a, t1)
  | (Raise e, t1) =>
      if exc_is_Exception e
      then let (r, t2) := handler e in (r, t1 ++ t2)
      else (Raise e, t1)
  end.

Notation "x <- m ;; k" := (bind m (fun x => k))
  (at level 61, m at next level, right associativity).
Notation "m ;;; k" := (bind m (fun _ => k))
  (at level 61, right associativity).

Definition outcome {A} (m : M A) : result A := fst m.
Definition trace {A} (m : M A) : list event := snd m.

(** Python truthiness of an optional string: [None] and [""] are false. *)
Definition truthy (o : option pystr) : bool :=
  match o with
  | None | Some [] => false
  | Some (_ :: _) => true
  end.

(** ** Prompt *)

Definition SYSTEM_PROMPT : pystr :=
  [nl] ++ str "You are an expert AI Notes Generator." ++ [nl] ++
  [nl] ++
  str "Summarize the given content into important structured bullet points." ++ [nl] ++
  str "Cover all key concepts properly." ++ [nl] ++
  str "Limit the summary to 250" ++ [8211%N] ++ str "300 words." ++ [nl].

(** ** YouTube Transcript Tool (Manual + Auto) *)

Definition languages : list pystr := [str "en"; str "hi"].

Definition transcript_error (e : pyexc) : pystr :=
  [10060%N] ++ str " Transcript Error: " ++ exc_str e.

Definition extract_youtube_transcript (w : World) (url : pystr) : M (option pystr) :=
  try_except_Exception
    (match get_video_id url with
     | None | Some [] => ret None
     | Some video_id =>
         transcript_list <- call (CallList video_id) (yt_list w video_id) ;;
         transcript <-
           try_except
             (call (CallFindManual languages)
                   (find_manually_created_transcript transcript_list languages))
             (call (CallFindGenerated languages)
                   (find_generated_transcript transcript_list languages)) ;;
         fetched <- call CallFetch (fetch transcript) ;;
         let transcript_text := join (str " ") (map text fetched) in
         ret (Some transcript_text)
     end)
    (fun e => call (StError (transcript_error e)) (Return tt) ;;; ret None).

(** ** Article Text Tool *)

Definition extract_article_text (w : World) (url : pystr) : M pystr :=
  html <- call (CallArticleDownload url) (article_download w url) ;;
  call CallArticleParse (article_parse w html).

(** ** Extract Images from Article *)

(** The loop body: append the resolved source when [src] is truthy; the
    exception of [urljoin] leaves the loop. *)
Definition img_step (w : World) (url : pystr) (img_urls : list pystr) (img : Tag)
    : result (list pystr) :=
  let src := tag_get img (str "src") in
  if truthy src
  then match src with
       | Some s =>
           match urljoin w url s with
           | Return joined => Return (img_urls ++ [joined])
           | Raise e => Raise e
           end
       | None => Return img_urls
       end
  else Return img_urls.

(** [for x in l: acc = step(acc, x)], stopping at the first exception. *)
Fixpoint for_each {A B} (step : B -> A -> result B) (l : list A) (acc : B)
    : result B :=
  match l with
  | [] => Return acc
  | x :: rest =>
      match step acc x with
      | Return acc' => for_each step rest acc'
      | Raise e => Raise e
      end
  end.

Definition extract_image_urls (w : World) (url : pystr) : M (list pystr) :=
  resp <- call (CallGet url) (requests_get w url) ;;
  let html := resp_text resp in
  imgs <- pure (find_all_img w html) ;;
  img_urls <- pure (for_each (img_step w url) imgs []) ;;
  ret (firstn 3 img_urls).

(** ** OCR from Image URLs *)

Definition ocr_from_image_url (w : World) (img_url : pystr) : M pystr :=
  try_except
    (resp <- call (CallGet img_url) (requests_get w img_url) ;;
     img <- call CallImageOpen (image_open w (resp_content resp)) ;;
     txt <- call CallImageToString (image_to_string w img) ;;
     ret (strip txt))
    (ret []).

(** ** Documentation Extract Tool (Text + OCR) *)

Definition images_header : pystr :=
  [nl; nl] ++ str "Important Text from Images:" ++ [nl].

(** The loop [for img_url in image_urls: ocr_text += "\n" + ocr(img_url)]. *)
Fixpoint ocr_loop (w : World) (image_urls : list pystr) (ocr_text : pystr) : M pystr :=
  match image_urls with
  | [] => ret ocr_text
  | img_url :: rest =>
      t <- ocr_from_image_url w img_url ;;
      ocr_loop w rest (ocr_text ++ [nl] ++ t)
  end.

Definition extract_article_with_images (w : World) (url : pystr) : M pystr :=
  txt <- extract_article_text w url ;;
  image_urls <- extract_image_urls w url ;;
  ocr_text <- ocr_loop w image_urls [] ;;
  let full_content := txt ++ images_header ++ ocr_text in
  ret full_content.

(** ** Groq Summarizer Tool *)

Definition user_prefix : pystr := str "Generate notes in bullet points:" ++ [nl].

Definition groq_request (content : pystr) : ChatRequest :=
  mk_request (str "llama-3.1-8b-instant")
    [mk_message (str "system") SYSTEM_PROMPT;
     mk_message (str "user") (user_prefix ++ content)]
    (QArith_base.Qmake 3%Z 10%positive).

Definition summarize_with_groq (w : World) (content : pystr) : M pystr :=
  let content := firstn (N.to_nat 7000) content in
  response <- call (CallCompletion (groq_request content))
                   (completions_create w (groq_request content)) ;;
  match choices response with
  | c :: _ => ret (message_content c)
  | [] => raise IndexError
  end.

(** ** Router Agent *)

Definition route_input (url : pystr) : pystr :=
  if contains (str "youtube.com") url || contains (str "youtu.be") url
  then str "youtube"
  else str "article".

(** ** Master Agent Pipeline *)

Definition agent_pipeline (w : World) (url : pystr) : M (option pystr) :=
  let input_type := route_input url in
  content <-
    (if pystr_eqb input_type (str "youtube")
     then extract_youtube_transcript w url
     else c <- extract_article_with_images w url ;; ret (Some c)) ;;
  if negb (truthy content) then ret None
  else match content with
       | Some c => s <- summarize_with_groq w c ;; ret (Some s)
       | None => ret None
       end.

(** ** PDF Creation Function *)

(** The document when [output] is called: one page, the font, and a cell
    per line of the summary. *)
Definition pdf_document (summary : pystr) : FPDF :=
  let pdf := FPDF_new in
  let pdf := add_page pdf in
  let pdf := set_font pdf (str "Arial") 12 in
  fold_left (fun pdf line => cell pdf 200 10 line true) (split nl summary) pdf.

Definition create_pdf (w : World) (summary : pystr) : M (list N) :=
  let pdf := pdf_document summary in
  s <- call (CallPdfOutput pdf) (pdf_output w pdf) ;;
  (encode_latin1 s, []).

(** ** Streamlit UI *)

(** What a run of the script does, in order: the widgets it draws, and the
    calls of the pipeline and of the export ([st.error] is the [StError] of
    the trace, here as in the transcript tool). *)
Inductive ui_event : Type :=
| StSetPageConfig (page_title layout : pystr)
| StTitle (body : pystr)
| StWrite (body : pystr)
| StTextInput (label : pystr)
| StImage (image : pystr) (width : N)
| StButton (label : pystr)
| StWarning (body : pystr)
| StSpinner (body : pystr)
| StMarkdown (body : pystr)
| StDownloadButton (label : pystr) (data : list N) (file_name mime : pystr)
| Backend (e : event).

Definition UI (A : Type) : Type := (result A * list ui_event)%type.

Definition ui_ret {A} (a : A) : UI A := (Return a, []).

Definition ui_bind {A B} (m : UI A) (f : A -> UI B) : UI B :=
  match m with
  | (Return a, t1) => let (r, t2) := f a in (r, t1 ++ t2)
  | (Raise e, t1) => (Raise e, t1)
  end.

(** A widget call. *)
Definition draw (ev : ui_event) : UI unit := (Return tt, [ev]).

(** A computation of the pipeline, run from the script. *)
Definition lift {A} (m : M A) : UI A := (fst m, map Backend (snd m)).

Notation "x <~ m ;; k" := (ui_bind m (fun x => k))
  (at level 61, m at next level, right associativity).
Notation "m ;;~ k" := (ui_bind m (fun _ => k))
  (at level 61, right associativity).

Definition ui_outcome {A} (m : UI A) : result A := fst m.
Definition ui_trace {A} (m : UI A) : list ui_event := snd m.

(** [f"https://img.youtube.com/vi/{video_id}/0.jpg"] *)
Definition thumbnail_url (video_id : pystr) : pystr :=
  str "https://img.youtube.com/vi/" ++ video_id ++ str "/0.jpg".

Definition no_content_message : pystr :=
  [10060%N] ++ str " Could not extract content from this URL.".

(** The top of the script: page set-up and the URL field. *)
Definition page_head : UI unit :=
  draw (StSetPageConfig (str "Universal Notes Generator") (str "wide")) ;;~
  draw (StTitle ([129302%N] ++ str " Universal URL " ++ [8594%N] ++
                 str " Detailed Notes Generator")) ;;~
  draw (StWrite (str "Paste any YouTube link OR any Article/Documentation URL to generate AI Notes." )) ;;~
  draw (StTextInput ([128279%N] ++ str " Enter Any URL:")).

(** Show Thumbnail ONLY if YouTube link. *)
Definition show_thumbnail (user_link : pystr) : UI unit :=
  if truthy (Some user_link) &&
     (contains (str "youtube.com") user_link || contains (str "youtu.be") user_link)
  then
    let video_id := get_video_id user_link in
    if truthy video_id
    then match video_id with
         | Some v => draw (StImage (thumbnail_url v) 450)
         | None => ui_ret tt
         end
    else ui_ret tt
  else ui_ret tt.

(** The body of [if st.button(...)]. *)
Definition on_click (w : World) (user_link : pystr) : UI unit :=
  if pystr_eqb (strip user_link) []
  then draw (StWarning ([9888%N; 65039%N] ++ str " Please enter a valid URL."))
  else
    draw (StSpinner (str "Agent is reading and summarizing... " ++ [9203%N])) ;;~
    summary <~ lift (agent_pipeline w user_link) ;;
    if truthy summary
    then match summary with
         | Some notes =>
             draw (StMarkdown (str "## " ++ [9989%N] ++ str " Detailed Notes:")) ;;~
             draw (StWrite notes) ;;~
             pdf_data <~ lift (create_pdf w notes) ;;
             draw (StDownloadButton ([128196%N] ++ str " Download Notes as PDF")
                                    pdf_data (str "notes.pdf") (str "application/pdf"))
         | None => ui_ret tt
         end
    else draw (Backend (StError no_content_message)).

(** One run of the script: [user_link] is what the text field holds and
    [clicked] whether the button was pressed. *)
Definition script (w : World) (user_link : pystr) (clicked : bool) : UI unit :=
  page_head ;;~
  show_thumbnail user_link ;;~
  clicked' <~ (draw (StButton ([128204%N] ++ str " Get Detailed Notes")) ;;~ ui_ret clicked) ;;
  if clicked' then on_click w user_link else ui_ret tt.

(** ** Sample worlds *)

Definition ConnectionError : pyexc :=
  mk_exc true "ConnectionError" (str "Max retries exceeded").

Definition TranscriptsDisabled : pyexc :=
  mk_exc true "TranscriptsDisabled" (str "Subtitles are disabled for this video").

Definition NoTranscriptFound : pyexc :=
  mk_exc true "NoTranscriptFound" (str "No transcripts were found").


Definition ValueError : pyexc := mk_exc true "ValueError" (str "Invalid IPv6 URL").

(** A stand-in for [urljoin] in the examples: it raises on a reference
    whose host opens a bracket and never closes it (as on "//[x"), keeps a
    source that has a scheme, and puts any other under the base. *)
Definition toy_urljoin (base src : pystr) : result pystr :=
  if startswith (str "//[") src && negb (contains (str "]") src)
  then Raise ValueError
  else if is_absolute src then Return src
  else Return (base ++ [ch "/"] ++ src).

(** A world from the answers of the transcript service, the article text,
    the page requests, the page's [<img>] elements, the OCR engine and the
    completion endpoint; images always decode and the renderer returns the
    text of the cells. *)
Definition world_of
    (transcripts : pystr -> result TranscriptList)
    (article : result pystr)
    (page : pystr -> result Response)
    (imgs : list Tag)
    (ocr : result pystr)
    (completion : result ChatCompletion) : World :=
  mk_world transcripts
    (fun _ => match article with
              | Return _ => Return (str "<html></html>")
              | Raise e => Raise e
              end)
    (fun _ => article)
    page
    (fun _ => Return imgs)
    toy_urljoin
    (fun bytes => Return (Decoded bytes))
    (fun _ => ocr)
    (fun _ => completion)
    (fun pdf => Return (concat (map cell_txt (pdf_cells pdf)))).

Definition a_page : Response := mk_response (str "<html></html>") [].

Definition a_completion : ChatCompletion :=
  mk_completion [mk_choice (str "- notes")].

Definition img_tag (src : pystr) : Tag := mk_tag [(str "alt", str "figure"); (str "src", src)].

(** A video with a manual English transcript "Hello" "world". *)
Definition manual_transcripts (video_id : pystr) : result TranscriptList :=
  Return (mk_transcript_list
            (fun _ => Return (mk_transcript
                                (Return [mk_snippet (str "Hello"); mk_snippet (str "world")])))
            (fun _ => Raise NoTranscriptFound)).

(** A video that has only an auto-generated transcript. *)
Definition generated_transcripts (video_id : pystr) : result TranscriptList :=
  Return (mk_transcript_list
            (fun _ => Raise NoTranscriptFound)
            (fun _ => Return (mk_transcript (Return [mk_snippet (str "auto")])))).

Definition video_world : World :=
  world_of manual_transcripts (Raise ConnectionError) (fun _ => Raise ConnectionError)
           [] (Return []) (Return a_completion).

Definition generated_world : World :=
  world_of generated_transcripts (Raise ConnectionError) (fun _ => Raise ConnectionError)
           [] (Return []) (Return a_completion).

(** Listing the transcripts fails. *)
Definition listing_fails_world : World :=
  world_of (fun _ => Raise TranscriptsDisabled) (Raise ConnectionError)
           (fun _ => Raise ConnectionError) [] (Return []) (Return a_completion).


(** A reachable page with no text and no image. *)
Definition empty_article_world : World :=
  world_of (fun _ => Raise TranscriptsDisabled) (Return [])
           (fun _ => Return a_page) [] (Return []) (Return a_completion).

(** A page with six [<img>] elements, one without [src] and one with an
    empty [src]. *)
Definition gallery_world : World :=
  world_of (fun _ => Raise TranscriptsDisabled) (Return (str "Body"))
           (fun _ => Return a_page)
           [img_tag (str "a.png"); mk_tag [(str "alt", str "no source")]; img_tag [];
            img_tag (str "https://cdn.example.com/b.png"); img_tag (str "c.png");
            img_tag (str "d.png")]
           (Return (str "  text in image ")) (Return a_completion).

(** A page whose fourth [<img>] has a source that [urljoin] cannot split. *)
Definition bad_source_world : World :=
  world_of (fun _ => Raise TranscriptsDisabled) (Return (str "Body"))
           (fun _ => Return a_page)
           [img_tag (str "a.png"); img_tag (str "b.png"); img_tag (str "c.png");
            img_tag (str "//[x")]
           (Return (str "text")) (Return a_completion).

(** The article is extracted and the request for the page fails. *)
Definition harvest_fails_world : World :=
  world_of (fun _ => Raise TranscriptsDisabled) (Return (str "Body"))
           (fun _ => Raise ConnectionError) [] (Return []) (Return a_completion).

(** ** Vocabulary of the statements *)

(** [url] has the literal [sub] somewhere in it. *)
Definition has_substring (sub url : pystr) : Prop :=
  exists pre post, url = pre ++ sub ++ post.

(** The [cell] call the export makes for one line. *)
Definition line_cell (line : pystr) : Cell := mk_cell 200 10 line true.

(** What the export relies on from the renderer: a code point outside
    latin-1 in the text of a cell is still there in the buffer [output]
    returns (or [output] raises on its own). *)
Definition renderer_keeps_text (w : World) : Prop :=
  forall pdf s, pdf_output w pdf = Return s ->
  forall cl c, In cl (pdf_cells pdf) -> In c (cell_txt cl) ->
               is_latin1 c = false -> In c s.




(** [t] is [txt] without the whitespace around it. *)
Definition trimmed (txt t : pystr) : Prop :=
  exists l r,
    txt = l ++ t ++ r /\
    forallb isspace l = true /\ forallb isspace r = true /\
    (forall x rest, t = x :: rest -> isspace x = false) /\
    (forall pre x, t = pre ++ [x] -> isspace x = false).

(** A character of the identifier alphabet [[0-9A-Za-z_-]]. *)
Definition is_id_char (c : codepoint) : bool := set_mem id_chars c.

(** What precedes an identifier: the query marker or a path separator. *)
Definition marker (m : pystr) : Prop := m = str "v=" \/ m = str "/".

(** After [pre], [url] goes on with a marker and the 11 identifier
    characters [id]. *)
Definition occurrence (url pre id : pystr) : Prop :=
  exists m post,
    marker m /\ url = pre ++ m ++ id ++ post /\
    length id = 11 /\ forallb is_id_char id = true.

(** No occurrence starts before [pre]. *)
Definition leftmost (url pre : pystr) : Prop :=
  forall pre' id', occurrence url pre' id' -> length pre <= length pre'.

(** The input after a marker at its head. *)
Definition after_marker (s : pystr) : option pystr :=
  match s with
  | c1 :: t =>
      if N.eqb c1 (ch "v") then
        match t with
        | c2 :: rest => if N.eqb c2 (ch "=") then Some rest else None
        | [] => None
        end
      else if N.eqb c1 (ch "/") then Some t
      else None
  | [] => None
  end.

(** The 11 identifier characters at the head of the input. *)
Definition take11 (s : pystr) : option pystr :=
  if (11 <=? length s) && forallb is_id_char (firstn 11 s)
  then Some (firstn 11 s) else None.

(** The identifier of an occurrence at the head of the input. *)
Definition id_at (s : pystr) : option pystr :=
  match after_marker s with
  | Some s1 => take11 s1
  | None => None
  end.

(** The identifier of the first position that has an occurrence. *)
Fixpoint first_id (s : pystr) : option pystr :=
  match id_at s with
  | Some id => Some id
  | None => match s with
            | [] => None
            | _ :: t => first_id t
            end
  end.

(** The calls to the outside world among the events of a run. *)
Definition backend_calls (t : list ui_event) : list event :=
  flat_map (fun ev => match ev with Backend e => [e] | _ => [] end) t.

(** No identifier can start at the head of [s], however [s] goes on: [s]
    does not start with a marker, or a character outside the identifier
    alphabet comes within 11 characters of the marker. *)
Definition blocked (s : pystr) : bool :=
  match after_marker s with
  | None => true
  | Some s1 => negb (forallb is_id_char (firstn 11 s1))
  end.

(** No identifier can start inside [pre] when the marker [m] follows it. *)
Fixpoint clear_before (pre m : pystr) : bool :=
  match pre with
  | [] => true
  | _ :: t => blocked (pre ++ m) && clear_before t m
  end.

(** A request made with [requests.get]. *)
Definition is_get (e : event) : bool :=
  match e with CallGet _ => true | _ => false end.

(** A request to the completion endpoint. *)
Definition is_completion (e : event) : bool :=
  match e with CallCompletion _ => true | _ => false end.

(** The first stage of the pipeline: the content of the routed path. *)
Definition content_stage (w : World) (url : pystr) : M (option pystr) :=
  if pystr_eqb (route_input url) (str "youtube")
  then extract_youtube_transcript w url
  else c <- extract_article_with_images w url ;; ret (Some c).

(** The texts of the script's widgets. *)
Definition warning_message : pystr :=
  [9888%N; 65039%N] ++ str " Please enter a valid URL.".

Definition spinner_text : pystr :=
  str "Agent is reading and summarizing... " ++ [9203%N].

Definition notes_heading : pystr :=
  str "## " ++ [9989%N] ++ str " Detailed Notes:".

Definition download_label : pystr :=
  [128196%N] ++ str " Download Notes as PDF".

(** What the script draws for notes it has: the heading, the notes, the
    export, and the download button when the export returns. *)
Definition notes_events (w : World) (notes : pystr) : list ui_event :=
  [StMarkdown notes_heading; StWrite notes]
  ++ map Backend (trace (create_pdf w notes))
  ++ match outcome (create_pdf w notes) with
     | Return pdf_data =>
         [StDownloadButton download_label pdf_data
                           (str "notes.pdf") (str "application/pdf")]
     | Raise _ => []
     end.

Definition button_label : pystr := [128204%N] ++ str " Get Detailed Notes".

(** What every run draws up to and including the button. *)
Definition drawn_before_click (user_link : pystr) : list ui_event :=
  ui_trace page_head ++ ui_trace (show_thumbnail user_link) ++ [StButton button_label].

(** * Properties *)


(** ** Strings *)

Lemma startswith_iff (p s : pystr) :
  startswith p s = true <-> exists post, s = p ++ post.
Proof.
  revert s; induction p as [|a p IH]; intros s; simpl.
  - split; [intros _; now exists s | reflexivity].
  - destruct s as [|b s].
    + split; [discriminate | intros [post H]; discriminate].
    + rewrite andb_true_iff, N.eqb_eq, IH. split.
      * intros [-> [post ->]]. now exists post.
      * intros [post H]. injection H as -> ->. split; [reflexivity | now exists post].
Qed.

Lemma contains_iff (sub s : pystr) :
  contains sub s = true <-> exists pre post, s = pre ++ sub ++ post.
Proof.
  induction s as [|x s IH].
  - simpl. rewrite orb_false_r, startswith_iff. split.
    + intros [post H]. now exists [], post.
    + intros [pre [post H]]. destruct pre; [now exists post | discriminate].
  - cbn [contains]. rewrite orb_true_iff, startswith_iff, IH. split.
    + intros [[post H] | [pre [post H]]].
      * now exists [], post.
      * exists (x :: pre), post. now rewrite H.
    + intros [pre [post H]]. destruct pre as [|y pre].
      * left. now exists post.
      * right. injection H as _ H. now exists pre, post.
Qed.

Lemma pystr_eqb_eq (a b : pystr) : pystr_eqb a b = true <-> a = b.
Proof.
  revert b; induction a as [|x a IH]; destruct b as [|y b]; simpl;
    try (split; [discriminate | intros H; discriminate]); [tauto |].
  rewrite andb_true_iff, N.eqb_eq, IH. split.
  - now intros [-> ->].
  - intros H; injection H as -> ->; auto.
Qed.

(** ** Router *)

(** C5: routing is a function of the URL alone; a URL goes to the video path
    exactly when it contains the literal "youtube.com" or "youtu.be", and to
    the article path otherwise. *)
Theorem route_input_by_substring (url : pystr) :
  (route_input url = str "youtube" <->
     has_substring (str "youtube.com") url \/ has_substring (str "youtu.be") url) /\
  (route_input url = str "article" <->
     ~ (has_substring (str "youtube.com") url \/ has_substring (str "youtu.be") url)).
Proof.
  unfold route_input, has_substring.
  rewrite <- !contains_iff, <- orb_true_iff.
  destruct (contains (str "youtube.com") url || contains (str "youtu.be") url).
  - split; split; intros H; try reflexivity.
    + vm_compute in H; discriminate.
    + exfalso; now apply H.
  - split; split; intros H; try reflexivity.
    + vm_compute in H; discriminate.
    + discriminate.
    + discriminate.
Qed.

(** The check is case-sensitive. *)
Example route_input_case_sensitive :
  route_input (str "https://www.YouTube.com/watch?v=dQw4w9WgXcQ") = str "article" /\
  route_input (str "https://www.youtube.com/watch?v=dQw4w9WgXcQ") = str "youtube" /\
  route_input (str "https://youtu.be/ABCDEFGHIJK") = str "youtube".
Proof. vm_compute. repeat split. Qed.

(** ** Summarizer *)

Lemma firstn_prefix (n : nat) (s : pystr) :
  exists dropped, s = firstn n s ++ dropped /\ (n < length s -> dropped <> []).
Proof.
  exists (skipn n s). split.
  - symmetry; apply firstn_skipn.
  - intros H E. apply (f_equal (@length _)) in E.
    rewrite length_skipn in E. simpl in E. lia.
Qed.

(** C1: the run is one completion request and its answer, and the request
    that reaches the endpoint is the one made of the first 7000 characters
    of the content: its user message is the fixed instruction followed by
    them, and the result is the first choice of the endpoint's answer to
    that request (its exception when it raises, [IndexError] when it has no
    choice).  The text sent is the content itself when it has at most 7000
    characters, and otherwise exactly 7000 characters, a proper prefix, the
    rest being dropped. *)
Theorem summarize_with_groq_truncates (w : World) (content : pystr) :
  exists sent,
    summarize_with_groq w content
    = (match completions_create w (groq_request sent) with
       | Raise e => Raise e
       | Return response =>
           match choices response with
           | c :: _ => Return (message_content c)
           | [] => Raise IndexError
           end
       end,
       [CallCompletion (groq_request sent)]) /\
    messages (groq_request sent) =
      [mk_message (str "system") SYSTEM_PROMPT;
       mk_message (str "user") (user_prefix ++ sent)] /\
    sent = firstn (N.to_nat 7000) content /\
    (length content <= N.to_nat 7000 -> sent = content) /\
    (N.to_nat 7000 < length content ->
       length sent = N.to_nat 7000 /\
       exists dropped, content = sent ++ dropped /\ dropped <> []).
Proof.
  exists (firstn (N.to_nat 7000) content).
  split; [| split; [reflexivity | split; [reflexivity | split]]].
  - unfold summarize_with_groq, bind, call, ret, raise.
    destruct (completions_create w _) as [resp | e]; [| reflexivity].
    destruct (choices resp); reflexivity.
  - intros H. now apply firstn_all2.
  - intros H. split.
    + rewrite length_firstn. lia.
    + destruct (firstn_prefix (N.to_nat 7000) content) as [d [E Hd]].
      exists d. split; [exact E | now apply Hd].
Qed.

(** ** PDF export *)

Lemma split_nonempty (c : codepoint) (s : pystr) : split c s <> [].
Proof.
  destruct s as [|x s]; simpl; [discriminate |].
  destruct (N.eqb x c); [discriminate |].
  destruct (split c s); discriminate.
Qed.

Lemma split_length (c : codepoint) (s : pystr) :
  length (split c s) = count c s + 1.
Proof.
  unfold count. induction s as [|x s IH]; simpl; [reflexivity |].
  rewrite (N.eqb_sym c x).
  destruct (N.eqb x c); simpl.
  - now rewrite IH.
  - destruct (split c s) eqn:E; simpl in *; lia.
Qed.

Lemma join_split (c : codepoint) (s : pystr) : join [c] (split c s) = s.
Proof.
  induction s as [|x s IH]; simpl; [reflexivity |].
  destruct (N.eqb x c) eqn:E.
  - apply N.eqb_eq in E; subst x.
    pose proof (split_nonempty c s) as Hne.
    simpl. destruct (split c s) as [|h r]; [contradiction |].
    simpl. now rewrite <- IH.
  - pose proof (split_nonempty c s) as Hne.
    destruct (split c s) as [|h r]; [contradiction |].
    rewrite <- IH. destruct r; reflexivity.
Qed.

Lemma split_app_sep (c : codepoint) (s : pystr) :
  split c (s ++ [c]) = split c s ++ [[]].
Proof.
  induction s as [|x s IH]; simpl.
  - now rewrite N.eqb_refl.
  - destruct (N.eqb x c); [now rewrite IH |].
    rewrite IH. pose proof (split_nonempty c s) as Hne.
    destruct (split c s); [contradiction | reflexivity].
Qed.

Lemma split_no_sep (c : codepoint) (s : pystr) :
  Forall (fun line => ~ In c line) (split c s).
Proof.
  induction s as [|x s IH]; simpl.
  - constructor; [intros [] | constructor].
  - destruct (N.eqb x c) eqn:E.
    + constructor; [intros [] | exact IH].
    + apply N.eqb_neq in E.
      destruct (split c s) as [|h r]; [constructor; [| constructor] |].
      * intros [H | []]; congruence.
      * inversion IH; subst. constructor; [| assumption].
        intros [H | H]; [congruence | contradiction].
Qed.

Lemma split_keeps_chars (c x : codepoint) (s : pystr) :
  In x s -> x <> c -> exists line, In line (split c s) /\ In x line.
Proof.
  intros Hin Hne. induction s as [|y s IH]; [contradiction |].
  simpl. destruct Hin as [-> | Hin].
  - apply N.eqb_neq in Hne. rewrite Hne.
    destruct (split c s) as [|h r].
    + exists [x]. simpl; auto.
    + exists (x :: h). simpl; auto.
  - destruct (IH Hin) as [line [Hl Hx]].
    destruct (N.eqb y c); [exists line; simpl; auto |].
    destruct (split c s) as [|h r]; [contradiction |].
    destruct Hl as [<- | Hl].
    + exists (y :: h). simpl; auto.
    + exists line. simpl; auto.
Qed.

Lemma fold_cell_cells (lines : list pystr) (pdf : FPDF) :
  pdf_cells (fold_left (fun pdf line => cell pdf 200 10 line true) lines pdf)
  = pdf_cells pdf ++ map line_cell lines.
Proof.
  revert pdf; induction lines as [|l lines IH]; intros pdf; simpl.
  - now rewrite app_nil_r.
  - rewrite IH. simpl. now rewrite <- app_assoc.
Qed.

Lemma pdf_document_cells (summary : pystr) :
  pdf_cells (pdf_document summary) = map line_cell (split nl summary).
Proof. unfold pdf_document. now rewrite fold_cell_cells. Qed.

Lemma create_pdf_trace (w : World) (summary : pystr) :
  trace (create_pdf w summary) = [CallPdfOutput (pdf_document summary)].
Proof.
  unfold create_pdf, trace, bind, call.
  destruct (pdf_output w _); reflexivity.
Qed.

Lemma split_single (c : codepoint) (l : pystr) : ~ In c l -> split c l = [l].
Proof.
  induction l as [|x l IH]; intros H; simpl; [reflexivity |].
  destruct (N.eqb x c) eqn:E.
  - apply N.eqb_eq in E. exfalso. apply H. now left.
  - rewrite IH; [reflexivity |]. intros Hin; apply H; now right.
Qed.

Lemma split_app_line (c : codepoint) (l rest : pystr) :
  ~ In c l -> split c (l ++ c :: rest) = l :: split c rest.
Proof.
  induction l as [|x l IH]; intros H; simpl.
  - now rewrite N.eqb_refl.
  - destruct (N.eqb x c) eqn:E.
    + apply N.eqb_eq in E. exfalso. apply H. now left.
    + rewrite IH; [reflexivity |]. intros Hin; apply H; now right.
Qed.

Lemma encode_latin1_rejects (s : pystr) (c : codepoint) :
  In c s -> is_latin1 c = false -> encode_latin1 s = Raise UnicodeEncodeError.
Proof.
  intros Hin Hc. unfold encode_latin1.
  destruct (forallb is_latin1 s) eqn:E; [| reflexivity].
  rewrite forallb_forall in E. rewrite (E c Hin) in Hc. discriminate.
Qed.

(** C9: the export hands the renderer one cell per line of the summary split
    on newlines, in order (three lines give three cells); and when the
    summary has a character outside latin-1 the export ends in an exception:
    the [UnicodeEncodeError] of [encode('latin-1')] when the renderer
    returned its buffer, the renderer's own when it raised.  The renderer
    is the external library: it is taken to keep the cells' text. *)
Theorem create_pdf_lines_and_encoding (w : World) (summary : pystr) :
  trace (create_pdf w summary) = [CallPdfOutput (pdf_document summary)] /\
  pdf_cells (pdf_document summary) = map line_cell (split nl summary) /\
  join [nl] (map cell_txt (pdf_cells (pdf_document summary))) = summary /\
  (forall l1 l2 l3, ~ In nl l1 -> ~ In nl l2 -> ~ In nl l3 ->
     summary = l1 ++ [nl] ++ l2 ++ [nl] ++ l3 ->
     pdf_cells (pdf_document summary) = [line_cell l1; line_cell l2; line_cell l3]) /\
  (renderer_keeps_text w ->
   (exists c, In c summary /\ is_latin1 c = false) ->
   match pdf_output w (pdf_document summary) with
   | Return _ => outcome (create_pdf w summary) = Raise UnicodeEncodeError
   | Raise e => outcome (create_pdf w summary) = Raise e
   end).
Proof.
  split; [apply create_pdf_trace |].
  split; [apply pdf_document_cells |].
  split.
  { rewrite pdf_document_cells, map_map. simpl.
    rewrite map_id. apply join_split. }
  split.
  { intros l1 l2 l3 H1 H2 H3 ->. rewrite pdf_document_cells. simpl.
    rewrite split_app_line by assumption.
    rewrite split_app_line by assumption.
    now rewrite split_single by assumption. }
  intros Hkeep [c [Hin Hc]].
  unfold create_pdf, outcome, bind, call.
  destruct (pdf_output w (pdf_document summary)) as [s | e] eqn:E; [| reflexivity].
  assert (Hne : c <> nl) by (intros ->; discriminate).
  destruct (split_keeps_chars nl c summary Hin Hne) as [line [Hl Hx]].
  assert (Hs : In c s).
  { apply (Hkeep _ _ E (line_cell line) c); [| exact Hx | exact Hc].
    rewrite pdf_document_cells. now apply in_map. }
  now rewrite (encode_latin1_rejects s c Hs Hc).
Qed.

(** C10: the document of a summary has one cell more than the summary has
    newlines: the empty summary gives one empty cell, a summary that ends in
    a newline gives a last empty cell, and no summary gives a document
    without cells.  The cells of a latin-1 summary are latin-1, and a
    latin-1 buffer from the renderer is returned as the bytes. *)
Theorem create_pdf_cell_count (w : World) (summary : pystr) :
  forallb is_latin1 summary = true ->
  trace (create_pdf w summary) = [CallPdfOutput (pdf_document summary)] /\
  length (pdf_cells (pdf_document summary)) = count nl summary + 1 /\
  pdf_cells (pdf_document summary) <> [] /\
  Forall (fun cl => forallb is_latin1 (cell_txt cl) = true)
         (pdf_cells (pdf_document summary)) /\
  (summary = [] -> pdf_cells (pdf_document summary) = [line_cell []]) /\
  (forall s, summary = s ++ [nl] ->
     pdf_cells (pdf_document summary) = pdf_cells (pdf_document s) ++ [line_cell []]) /\
  (forall buffer, pdf_output w (pdf_document summary) = Return buffer ->
     forallb is_latin1 buffer = true ->
     outcome (create_pdf w summary) = Return buffer).
Proof.
  intros Hlatin.
  assert (Hexport : forall buffer,
            pdf_output w (pdf_document summary) = Return buffer ->
            forallb is_latin1 buffer = true ->
            outcome (create_pdf w summary) = Return buffer).
  { intros buffer Hout Hb. unfold create_pdf, outcome, bind, call, encode_latin1.
    rewrite Hout. cbn [fst]. now rewrite Hb. }
  split; [apply create_pdf_trace |].
  rewrite pdf_document_cells.
  split; [now rewrite length_map, split_length |].
  split.
  { pose proof (split_nonempty nl summary).
    destruct (split nl summary); [contradiction | discriminate]. }
  split.
  { rewrite Forall_forall. intros cl Hcl.
    apply in_map_iff in Hcl. destruct Hcl as [line [<- Hl]]. simpl.
    rewrite forallb_forall in *. intros c Hc. apply Hlatin.
    rewrite <- (join_split nl summary).
    clear Hlatin. revert Hl. generalize (split nl summary) as ls.
    induction ls as [|l ls IH]; [contradiction |].
    intros [-> | Hl].
    - destruct ls; simpl; [assumption | apply in_or_app; now left].
    - destruct ls as [|l' ls']; [contradiction |].
      change (In c (l ++ [nl] ++ join [nl] (l' :: ls'))).
      apply in_or_app; right. apply in_or_app; right. now apply IH. }
  split.
  { now intros ->. }
  split; [| exact Hexport].
  intros s ->. rewrite pdf_document_cells, split_app_sep, map_app. reflexivity.
Qed.

(** ** Image harvest *)







(** Whatever the harvest returns has at most three URLs. *)
Lemma extract_image_urls_at_most_three (w : World) (url : pystr) :
  match outcome (extract_image_urls w url) with
  | Return urls => length urls <= 3
  | Raise e => True
  end.
Proof.
  unfold extract_image_urls, outcome, bind, call, pure, ret.
  destruct (requests_get w url) as [resp | e]; [| exact I].
  destruct (find_all_img w (resp_text resp)) as [imgs | e]; [| exact I].
  destruct (for_each (img_step w url) imgs []) as [img_urls | e]; [| exact I].
  cbn - [firstn]. rewrite length_firstn. lia.
Qed.

(** ** OCR *)

Lemma lstrip_decomp (s : pystr) :
  exists l, s = l ++ lstrip s /\ forallb isspace l = true.
Proof.
  induction s as [|x s [l [E Hl]]]; [now exists [] |].
  simpl. destruct (isspace x) eqn:Hx.
  - exists (x :: l). simpl. rewrite Hx, Hl. split; [now rewrite <- E | reflexivity].
  - now exists [].
Qed.

Lemma lstrip_head (s : pystr) (x : codepoint) (rest : pystr) :
  lstrip s = x :: rest -> isspace x = false.
Proof.
  induction s as [|y s IH]; simpl; [discriminate |].
  destruct (isspace y) eqn:Hy; [exact IH |].
  intros H; injection H as <- _. exact Hy.
Qed.

Lemma lstrip_all_space (s : pystr) : forallb isspace s = true -> lstrip s = [].
Proof.
  induction s as [|x s IH]; simpl; [reflexivity |].
  destruct (isspace x); simpl; [exact IH | discriminate].
Qed.

Lemma forallb_rev (f : codepoint -> bool) (s : pystr) :
  forallb f (rev s) = forallb f s.
Proof.
  destruct (forallb f s) eqn:E.
  - rewrite forallb_forall in *. intros x Hx. apply E. now apply in_rev.
  - destruct (forallb f (rev s)) eqn:E'; [| reflexivity].
    rewrite <- E. symmetry. rewrite forallb_forall in *.
    intros x Hx. apply E'. now apply in_rev in Hx.
Qed.

Lemma rstrip_decomp (s : pystr) :
  exists r, s = rstrip s ++ r /\ forallb isspace r = true.
Proof.
  destruct (lstrip_decomp (rev s)) as [l [E Hl]].
  exists (rev l). split.
  - unfold rstrip. rewrite <- rev_app_distr, <- E. now rewrite rev_involutive.
  - now rewrite forallb_rev.
Qed.

Lemma strip_trimmed (txt : pystr) : trimmed txt (strip txt).
Proof.
  destruct (rstrip_decomp txt) as [r [Er Hr]].
  destruct (lstrip_decomp (rstrip txt)) as [l [El Hl]].
  exists l, r. repeat split; try assumption.
  - unfold strip. rewrite app_assoc, <- El. exact Er.
  - intros x rest. apply lstrip_head.
  - intros pre x H. unfold strip in *.
    rewrite H in El. unfold rstrip in El.
    apply (f_equal (@rev _)) in El.
    rewrite rev_involutive, app_assoc, rev_app_distr in El. simpl in El.
    exact (lstrip_head _ _ _ El).
Qed.

Lemma strip_all_space (txt : pystr) : forallb isspace txt = true -> strip txt = [].
Proof.
  intros H. unfold strip, rstrip.
  rewrite (lstrip_all_space (rev txt)) by now rewrite forallb_rev.
  reflexivity.
Qed.

(** The OCR step always returns: the handler catches every exception. *)
Lemma ocr_from_image_url_returns (w : World) (img_url : pystr) :
  exists t, outcome (ocr_from_image_url w img_url) = Return t.
Proof.
  unfold ocr_from_image_url, outcome, try_except, bind, call, ret.
  destruct (requests_get w img_url) as [resp | e]; [| now exists []].
  destruct (image_open w (resp_content resp)) as [img | e]; [| now exists []].
  destruct (image_to_string w img) as [txt | e]; [| now exists []].
  now exists (strip txt).
Qed.

(** C7: the OCR step never raises, whatever the exceptions of its three
    calls (even ones that are not instances of [Exception]).  When the
    download, the decoding and the recognition succeed it returns the
    recognised text without the whitespace around it; when any of them fails
    it returns the empty string, which is also what an image whose text is
    blank gives. *)
Theorem ocr_from_image_url_total (w : World) (img_url : pystr) :
  (exists t, outcome (ocr_from_image_url w img_url) = Return t) /\
  (forall resp img txt,
     requests_get w img_url = Return resp ->
     image_open w (resp_content resp) = Return img ->
     image_to_string w img = Return txt ->
     outcome (ocr_from_image_url w img_url) = Return (strip txt) /\
     trimmed txt (strip txt) /\
     (forallb isspace txt = true ->
      outcome (ocr_from_image_url w img_url) = Return [])) /\
  (forall e, requests_get w img_url = Raise e ->
     outcome (ocr_from_image_url w img_url) = Return []) /\
  (forall resp e,
     requests_get w img_url = Return resp ->
     image_open w (resp_content resp) = Raise e ->
     outcome (ocr_from_image_url w img_url) = Return []) /\
  (forall resp img e,
     requests_get w img_url = Return resp ->
     image_open w (resp_content resp) = Return img ->
     image_to_string w img = Raise e ->
     outcome (ocr_from_image_url w img_url) = Return []).
Proof.
  split; [apply ocr_from_image_url_returns |].
  unfold ocr_from_image_url, outcome, try_except, bind, call, ret.
  split; [| split; [| split]].
  - intros resp img txt Hget Hopen Hocr. rewrite Hget, Hopen, Hocr.
    split; [reflexivity |]. split; [apply strip_trimmed |].
    intros Hblank. cbn [fst]. now rewrite strip_all_space.
  - intros e Hget. now rewrite Hget.
  - intros resp e Hget Hopen. now rewrite Hget, Hopen.
  - intros resp img e Hget Hopen Hocr. now rewrite Hget, Hopen, Hocr.
Qed.

(** ** Computations *)

Lemma outcome_bind {A B} (m : M A) (f : A -> M B) :
  outcome (bind m f)
  = match outcome m with
    | Return a => outcome (f a)
    | Raise e => Raise e
    end.
Proof.
  unfold outcome, bind. destruct m as [[a | e] t]; simpl; [| reflexivity].
  now destruct (f a).
Qed.

Lemma trace_bind {A B} (m : M A) (f : A -> M B) :
  trace (bind m f)
  = trace m ++ match outcome m with
               | Return a => trace (f a)
               | Raise _ => []
               end.
Proof.
  unfold outcome, trace, bind. destruct m as [[a | e] t]; simpl.
  - now destruct (f a).
  - now rewrite app_nil_r.
Qed.

(** ** Document assembly *)

Lemma ocr_loop_returns (w : World) (image_urls : list pystr) (ocr_text : pystr) :
  exists ocr_texts,
    Forall2 (fun u t => outcome (ocr_from_image_url w u) = Return t)
            image_urls ocr_texts /\
    outcome (ocr_loop w image_urls ocr_text)
    = Return (ocr_text ++ concat (map (fun t => [nl] ++ t) ocr_texts)).
Proof.
  revert ocr_text; induction image_urls as [|u urls IH]; intros ocr_text.
  - exists []. split; [constructor |]. simpl. now rewrite app_nil_r.
  - destruct (ocr_from_image_url_returns w u) as [t Ht].
    destruct (IH (ocr_text ++ [nl] ++ t)) as [ts [Hts Hout]].
    exists (t :: ts). split; [now constructor |].
    cbn [ocr_loop]. rewrite outcome_bind, Ht, Hout.
    cbn [map concat]. now rewrite <- !app_assoc.
Qed.

(** C8 (as amended): when the article text is extracted and the harvest of
    the page's images returns (the request for the page, its parsing and
    every [urljoin] went through), the assembled content is the article
    text, then the header "\n\nImportant Text from Images:\n", then the OCR
    text of each harvested image in harvest order, each after one newline;
    for a page without [<img>] elements it is the article text and the
    header. *)
Theorem extract_article_with_images_layout
    (w : World) (url txt : pystr) (image_urls : list pystr) :
  outcome (extract_article_text w url) = Return txt ->
  outcome (extract_image_urls w url) = Return image_urls ->
  images_header = [nl; nl] ++ str "Important Text from Images:" ++ [nl] /\
  (exists ocr_texts,
     Forall2 (fun u t => outcome (ocr_from_image_url w u) = Return t)
             image_urls ocr_texts /\
     outcome (extract_article_with_images w url)
     = Return (txt ++ images_header ++ concat (map (fun t => [nl] ++ t) ocr_texts))) /\
  (forall resp, requests_get w url = Return resp ->
     find_all_img w (resp_text resp) = Return [] ->
     image_urls = [] /\
     outcome (extract_article_with_images w url) = Return (txt ++ images_header)).
Proof.
  intros Htxt Himgs.
  assert (Hlayout : forall ocr_text,
            outcome (ocr_loop w image_urls []) = Return ocr_text ->
            outcome (extract_article_with_images w url)
            = Return (txt ++ images_header ++ ocr_text)).
  { intros ocr_text Hloop. unfold extract_article_with_images.
    rewrite outcome_bind, Htxt, outcome_bind, Himgs, outcome_bind, Hloop.
    reflexivity. }
  split; [reflexivity |]. split.
  - destruct (ocr_loop_returns w image_urls []) as [ts [Hts Hout]].
    exists ts. split; [exact Hts |]. now apply Hlayout.
  - intros resp Hget Hnone.
    assert (E : image_urls = []).
    { unfold extract_image_urls, outcome, bind, call, pure, ret in Himgs.
      rewrite Hget, Hnone in Himgs. cbn in Himgs.
      now injection Himgs as <-. }
    split; [exact E |]. subst image_urls.
    rewrite (Hlayout []); [now rewrite app_nil_r | reflexivity].
Qed.

(** ** Identifier extraction *)

Lemma rrepeat_set (items : list (codepoint * codepoint)) (n : nat) (s : pystr) :
  rrepeat 0 (rmatch (RSet items)) n s
  = if (n <=? length s) && forallb (set_mem items) (firstn n s)
    then [([], skipn n s)] else [].
Proof.
  revert s; induction n as [|n IH]; intros s; [reflexivity |].
  destruct s as [|x t]; [reflexivity |].
  cbn [rrepeat rmatch]. destruct (set_mem items x) eqn:Hx.
  - cbn [flat_map]. rewrite IH, app_nil_r.
    cbn [length firstn forallb skipn]. rewrite Hx. cbn [andb].
    change (S n <=? S (length t)) with (n <=? length t).
    destruct ((n <=? length t) && forallb (set_mem items) (firstn n t));
      [| reflexivity].
    cbn [map andb]. now destruct n.
  - cbn [flat_map firstn forallb]. rewrite Hx. now rewrite andb_false_r.
Qed.

Lemma consumed_skipn (n : nat) (s : pystr) :
  n <= length s -> consumed s (skipn n s) = firstn n s.
Proof.
  intros H. unfold consumed. rewrite length_skipn.
  f_equal. lia.
Qed.

Lemma rmatch_id_group (s : pystr) :
  rmatch (RGroup (RRepeat 11 (RSet id_chars))) s
  = match take11 s with
    | Some id => [([Some id], skipn 11 s)]
    | None => []
    end.
Proof.
  change (rmatch (RGroup (RRepeat 11 (RSet id_chars))) s)
    with (map (fun '(g, s1) => (Some (consumed s s1) :: g, s1))
              (rrepeat 0 (rmatch (RSet id_chars)) 11 s)).
  rewrite rrepeat_set. unfold take11, is_id_char.
  destruct (11 <=? length s) eqn:Hlen; [| reflexivity].
  destruct (forallb (set_mem id_chars) (firstn 11 s)); [| reflexivity].
  cbn [andb map]. rewrite consumed_skipn; [reflexivity |].
  now apply Nat.leb_le.
Qed.

Lemma rmatch_marker (s : pystr) :
  rmatch (RNonCap (RAlt (RSeq (RChar (ch "v")) (RChar (ch "="))) (RChar (ch "/")))) s
  = match after_marker s with
    | Some s1 => [([], s1)]
    | None => []
    end.
Proof.
  destruct s as [|c1 t]; [reflexivity |].
  cbn [rmatch ngroups after_marker].
  destruct (N.eqb c1 (ch "v")) eqn:Ev.
  - apply N.eqb_eq in Ev; subst c1.
    change (N.eqb (ch "v") (ch "/")) with false.
    destruct t as [|c2 rest]; [reflexivity |].
    cbn [flat_map]. destruct (N.eqb c2 (ch "=")); reflexivity.
  - destruct (N.eqb c1 (ch "/")); reflexivity.
Qed.

Lemma rmatch_pattern (s : pystr) :
  rmatch pattern s
  = match after_marker s with
    | Some s1 => match take11 s1 with
                 | Some id => [([Some id], skipn 11 s1)]
                 | None => []
                 end
    | None => []
    end.
Proof.
  unfold pattern.
  change (rmatch (RSeq ?a ?b) s)
    with (flat_map (fun '(g1, s1) => map (fun '(g2, s2) => (g1 ++ g2, s2)) (rmatch b s1))
                   (rmatch a s)).
  rewrite rmatch_marker.
  destruct (after_marker s) as [s1 |]; [| reflexivity].
  cbn [flat_map]. rewrite rmatch_id_group.
  destruct (take11 s1); reflexivity.
Qed.

Lemma get_video_id_first_id (url : pystr) : get_video_id url = first_id url.
Proof.
  unfold get_video_id.
  induction url as [|x t IH]; cbn [re_search first_id]; rewrite rmatch_pattern;
    unfold id_at.
  - reflexivity.
  - destruct (after_marker (x :: t)) as [s1 |]; [| exact IH].
    destruct (take11 s1); [reflexivity | exact IH].
Qed.

Lemma after_marker_iff (s s1 : pystr) :
  after_marker s = Some s1 <-> exists m, marker m /\ s = m ++ s1.
Proof.
  split.
  - destruct s as [|c1 t]; [discriminate |]. cbn [after_marker].
    destruct (N.eqb c1 (ch "v")) eqn:Ev.
    + apply N.eqb_eq in Ev; subst c1.
      destruct t as [|c2 rest]; [discriminate |].
      destruct (N.eqb c2 (ch "=")) eqn:Ee; [| discriminate].
      apply N.eqb_eq in Ee; subst c2.
      intros H; injection H as <-. exists (str "v="). split; [now left | reflexivity].
    + destruct (N.eqb c1 (ch "/")) eqn:Es; [| discriminate].
      apply N.eqb_eq in Es; subst c1.
      intros H; injection H as <-. exists (str "/"). split; [now right | reflexivity].
  - intros [m [[-> | ->] ->]]; reflexivity.
Qed.

Lemma take11_iff (s id : pystr) :
  take11 s = Some id <->
  exists post, s = id ++ post /\ length id = 11 /\ forallb is_id_char id = true.
Proof.
  unfold take11. remember 11 as n eqn:En. split.
  - destruct (n <=? length s) eqn:Hlen; [| discriminate].
    destruct (forallb is_id_char (firstn n s)) eqn:Hid; [| discriminate].
    cbn [andb]. intros H; injection H as <-.
    apply Nat.leb_le in Hlen.
    exists (skipn n s). split; [symmetry; apply firstn_skipn |].
    split; [rewrite length_firstn; lia | exact Hid].
  - intros [post [-> [Hlen Hid]]].
    assert (E : firstn n (id ++ post) = id).
    { rewrite <- Hlen, firstn_app, Nat.sub_diag, firstn_all.
      cbn [firstn]. apply app_nil_r. }
    rewrite E, Hid, length_app, Hlen, (proj2 (Nat.leb_le _ _)) by lia.
    reflexivity.
Qed.

Lemma id_at_iff (s id : pystr) : id_at s = Some id <-> occurrence s [] id.
Proof.
  unfold id_at, occurrence. split.
  - destruct (after_marker s) as [s1 |] eqn:Em; [| discriminate].
    intros Ht. apply after_marker_iff in Em. destruct Em as [m [Hm ->]].
    apply take11_iff in Ht. destruct Ht as [post [-> [Hlen Hid]]].
    now exists m, post.
  - intros [m [post [Hm [E [Hlen Hid]]]]]. cbn [app] in E.
    assert (Em : after_marker s = Some (id ++ post)).
    { apply after_marker_iff. now exists m. }
    rewrite Em. apply take11_iff. now exists post.
Qed.

Lemma occurrence_cons (x : codepoint) (s pre id : pystr) :
  occurrence (x :: s) (x :: pre) id <-> occurrence s pre id.
Proof.
  unfold occurrence. split; intros [m [post [Hm [E H]]]]; exists m, post;
    (split; [exact Hm |]); (split; [| exact H]).
  - now injection E.
  - cbn [app]. now rewrite E.
Qed.

Lemma occurrence_pre (x : codepoint) (s pre id : pystr) :
  occurrence (x :: s) pre id ->
  pre = [] \/ exists pre', pre = x :: pre' /\ occurrence s pre' id.
Proof.
  intros H. destruct pre as [|y pre']; [now left | right].
  assert (y = x) as ->.
  { destruct H as [m [post [_ [E _]]]]. now injection E. }
  exists pre'. split; [reflexivity | now apply occurrence_cons in H].
Qed.

Lemma occurrence_nil (pre id : pystr) : ~ occurrence [] pre id.
Proof.
  intros [m [post [Hm [E [Hlen _]]]]].
  destruct pre; [| discriminate].
  destruct Hm as [-> | ->]; discriminate.
Qed.

Lemma first_id_sound (s id : pystr) :
  first_id s = Some id -> exists pre, occurrence s pre id /\ leftmost s pre.
Proof.
  induction s as [|x t IH]; cbn [first_id].
  - destruct (id_at []) eqn:E; [| discriminate].
    intros H; injection H as ->. apply id_at_iff in E.
    now apply occurrence_nil in E.
  - destruct (id_at (x :: t)) as [id0 |] eqn:E.
    + intros H; injection H as ->. apply id_at_iff in E.
      exists []. split; [exact E |]. intros pre' id' _. cbn [length]. lia.
    + intros H. destruct (IH H) as [pre [Hocc Hleft]].
      exists (x :: pre). split; [now apply occurrence_cons |].
      intros pre' id' H'.
      destruct (occurrence_pre _ _ _ _ H') as [-> | [p [-> Hp]]].
      * apply id_at_iff in H'. congruence.
      * cbn [length]. apply le_n_S. now apply (Hleft p id').
Qed.

Lemma first_id_complete (s pre id : pystr) :
  occurrence s pre id -> leftmost s pre -> first_id s = Some id.
Proof.
  revert pre; induction s as [|x t IH]; intros pre Hocc Hleft.
  - now apply occurrence_nil in Hocc.
  - cbn [first_id]. destruct (id_at (x :: t)) as [id0 |] eqn:E.
    + apply id_at_iff in E. pose proof (Hleft [] id0 E) as Hlen.
      destruct pre; [| cbn [length] in Hlen; lia].
      apply id_at_iff in Hocc, E. congruence.
    + destruct (occurrence_pre _ _ _ _ Hocc) as [-> | [p [-> Hp]]].
      * apply id_at_iff in Hocc. congruence.
      * apply (IH p Hp). intros pre' id' H'.
        apply (occurrence_cons x) in H'. apply Hleft in H'.
        cbn [length] in H'. lia.
Qed.

Lemma first_id_none (s : pystr) :
  first_id s = None <-> forall pre id, ~ occurrence s pre id.
Proof.
  split.
  - induction s as [|x t IH]; intros H pre id Hocc.
    + now apply occurrence_nil in Hocc.
    + cbn [first_id] in H. destruct (id_at (x :: t)) eqn:E; [discriminate |].
      destruct (occurrence_pre _ _ _ _ Hocc) as [-> | [p [-> Hp]]].
      * apply id_at_iff in Hocc. congruence.
      * exact (IH H p id Hp).
  - intros H. destruct (first_id s) as [id |] eqn:E; [| reflexivity].
    apply first_id_sound in E. destruct E as [pre [Hocc _]].
    now apply H in Hocc.
Qed.

(** C4 (as amended): the identifier returned is the 11-character run of the
    leftmost place where a run of 11 characters of [[0-9A-Za-z_-]] follows
    "v=" or "/"; so a URL with one such place yields exactly its identifier,
    a URL with several yields the first, and a URL with none yields
    [None]. *)
Theorem get_video_id_leftmost (url : pystr) :
  (forall id,
     get_video_id url = Some id <->
     exists pre, occurrence url pre id /\ leftmost url pre) /\
  (forall pre id,
     occurrence url pre id ->
     (forall pre' id', occurrence url pre' id' -> pre' = pre) ->
     get_video_id url = Some id) /\
  ((exists pre id, occurrence url pre id) ->
   exists id, get_video_id url = Some id /\ length id = 11 /\
              forallb is_id_char id = true) /\
  (get_video_id url = None <-> forall pre id, ~ occurrence url pre id).
Proof.
  rewrite get_video_id_first_id. repeat split.
  - apply first_id_sound.
  - intros [pre [Hocc Hleft]]. now apply (first_id_complete url pre).
  - intros pre id Hocc Huniq. apply (first_id_complete url pre id Hocc).
    intros pre' id' H'. now rewrite (Huniq pre' id' H').
  - intros [pre [id Hocc]].
    destruct (first_id url) as [id0 |] eqn:E.
    + exists id0. split; [reflexivity |].
      apply first_id_sound in E. destruct E as [p [[m [post [_ [_ H]]]] _]].
      exact H.
    + exfalso. exact (proj1 (first_id_none url) E pre id Hocc).
  - apply first_id_none.
  - apply first_id_none.
Qed.

(** C4, the claim as first stated, fails: this URL has "v=dQw4w9WgXcQ" in it, and
    the identifier returned is the path segment "live_stream" before it. *)
Lemma get_video_id_not_every_occurrence :
  occurrence (str "https://www.youtube.com/live_stream?v=dQw4w9WgXcQ")
             (str "https://www.youtube.com/live_stream?") (str "dQw4w9WgXcQ") /\
  get_video_id (str "https://www.youtube.com/live_stream?v=dQw4w9WgXcQ")
  = Some (str "live_stream") /\
  get_video_id (str "https://www.youtube.com/live_stream?v=dQw4w9WgXcQ")
  <> Some (str "dQw4w9WgXcQ").
Proof.
  split; [| split].
  - exists (str "v="), []. repeat split. now left.
  - vm_compute. reflexivity.
  - vm_compute. discriminate.
Qed.

Example get_video_id_watch :
  get_video_id (str "https://www.youtube.com/watch?v=dQw4w9WgXcQ")
  = Some (str "dQw4w9WgXcQ").
Proof. vm_compute. reflexivity. Qed.

Example get_video_id_short :
  get_video_id (str "https://youtu.be/ABCDEFGHIJK") = Some (str "ABCDEFGHIJK").
Proof. vm_compute. reflexivity. Qed.

Example get_video_id_none :
  get_video_id (str "https://example.com/article") = None.
Proof. vm_compute. reflexivity. Qed.

(** ** Transcript fetch *)

Lemma get_video_id_length (url id : pystr) :
  get_video_id url = Some id -> length id = 11.
Proof.
  rewrite get_video_id_first_id. intros H.
  apply first_id_sound in H.
  destruct H as [pre [[m [post [_ [_ [Hlen _]]]]] _]]. exact Hlen.
Qed.

(** With an identifier, the body of the function is the calls on it. *)
Lemma extract_youtube_transcript_with_id (w : World) (url video_id : pystr) :
  get_video_id url = Some video_id ->
  extract_youtube_transcript w url
  = try_except_Exception
      (transcript_list <- call (CallList video_id) (yt_list w video_id) ;;
       transcript <-
         try_except
           (call (CallFindManual languages)
                 (find_manually_created_transcript transcript_list languages))
           (call (CallFindGenerated languages)
                 (find_generated_transcript transcript_list languages)) ;;
       fetched <- call CallFetch (fetch transcript) ;;
       ret (Some (join (str " ") (map text fetched))))
      (fun e => call (StError (transcript_error e)) (Return tt) ;;; ret None).
Proof.
  intros H. unfold extract_youtube_transcript. rewrite H.
  apply get_video_id_length in H.
  destruct video_id; [discriminate | reflexivity].
Qed.




(** A video that has only an auto-generated transcript: the manual lookup
    fails and the generated one is used. *)
Example extract_youtube_transcript_generated :
  extract_youtube_transcript generated_world (str "https://youtu.be/ABCDEFGHIJK")
  = (Return (Some (str "auto")),
     [CallList (str "ABCDEFGHIJK"); CallFindManual languages;
      CallFindGenerated languages; CallFetch]).
Proof. vm_compute. reflexivity. Qed.

(** ** Pipeline *)

(** The summarizer makes one call, whatever the answer. *)
Lemma summarize_with_groq_trace (w : World) (content : pystr) :
  trace (summarize_with_groq w content)
  = [CallCompletion (groq_request (firstn (N.to_nat 7000) content))].
Proof.
  unfold summarize_with_groq, trace, bind, call.
  destruct (completions_create w _) as [resp | e]; [| reflexivity].
  destruct (choices resp); reflexivity.
Qed.

Lemma extract_article_with_images_nonempty (w : World) (url c : pystr) :
  outcome (extract_article_with_images w url) = Return c -> c <> [].
Proof.
  unfold extract_article_with_images. rewrite outcome_bind.
  destruct (outcome (extract_article_text w url)) as [txt | e]; [| discriminate].
  rewrite outcome_bind.
  destruct (outcome (extract_image_urls w url)) as [urls | e]; [| discriminate].
  rewrite outcome_bind.
  destruct (outcome (ocr_loop w urls [])) as [ocr_text | e]; [| discriminate].
  unfold ret, outcome. cbn [fst]. intros H; injection H as <-.
  intros E. apply (f_equal (@length _)) in E.
  rewrite !length_app in E. cbn in E. lia.
Qed.

(** On the video path, an absent or empty transcript ends the run with
    [None] and no completion request. *)
Lemma agent_pipeline_video_no_content (w : World) (url : pystr) :
  route_input url = str "youtube" ->
  outcome (extract_youtube_transcript w url) = Return None \/
  outcome (extract_youtube_transcript w url) = Return (Some []) ->
  outcome (agent_pipeline w url) = Return None /\
  trace (agent_pipeline w url) = trace (extract_youtube_transcript w url).
Proof.
  intros Hroute H. unfold agent_pipeline. rewrite Hroute.
  change (pystr_eqb (str "youtube") (str "youtube")) with true. cbv iota.
  rewrite outcome_bind, trace_bind.
  destruct H as [-> | ->]; cbn; now rewrite app_nil_r.
Qed.

(** On the article path the test [if not content] never holds: the content
    always has the header in it, so a run that gets past the extraction goes
    on to the completion request. *)
Lemma agent_pipeline_article_guard (w : World) (url : pystr) :
  route_input url = str "article" ->
  outcome (agent_pipeline w url) <> Return None /\
  (forall c, outcome (extract_article_with_images w url) = Return c ->
     exists rest,
       trace (agent_pipeline w url)
       = trace (extract_article_with_images w url)
         ++ CallCompletion (groq_request (firstn (N.to_nat 7000) c)) :: rest).
Proof.
  intros Hroute. unfold agent_pipeline. rewrite Hroute.
  change (pystr_eqb (str "article") (str "youtube")) with false. cbv iota.
  rewrite !outcome_bind, !trace_bind, !outcome_bind.
  destruct (outcome (extract_article_with_images w url)) as [c | e] eqn:E.
  - pose proof (extract_article_with_images_nonempty w url c E) as Hne.
    destruct c as [|x c]; [contradiction |].
    cbn [outcome ret fst truthy negb trace snd app].
    split.
    + rewrite outcome_bind.
      destruct (outcome (summarize_with_groq w (x :: c))); discriminate.
    + intros c' H; injection H as <-.
      rewrite trace_bind.
      rewrite (summarize_with_groq_trace w (x :: c)),
        (app_nil_r (trace (extract_article_with_images w url))).
      cbn [app]. eexists. reflexivity.
  - split; [discriminate | intros c H; discriminate].
Qed.

(** C2: an article page with no text and no image is not treated as a
    failed extraction: the content is then the header alone, which is not
    empty, and the run sends it to the completion endpoint and returns the
    summary; a video whose transcripts cannot be listed ends with [None] and
    no completion request. *)
Lemma agent_pipeline_empty_article_is_summarized :
  route_input (str "https://example.com/article") = str "article" /\
  outcome (extract_article_text empty_article_world (str "https://example.com/article"))
  = Return [] /\
  outcome (extract_image_urls empty_article_world (str "https://example.com/article"))
  = Return [] /\
  agent_pipeline empty_article_world (str "https://example.com/article")
  = (Return (Some (str "- notes")),
     [CallArticleDownload (str "https://example.com/article"); CallArticleParse;
      CallGet (str "https://example.com/article");
      CallCompletion (groq_request images_header)]) /\
  agent_pipeline listing_fails_world (str "https://youtu.be/ABCDEFGHIJK")
  = (Return None,
     [CallList (str "ABCDEFGHIJK"); StError (transcript_error TranscriptsDisabled)]).
Proof.
  repeat split; vm_compute; reflexivity.
Qed.

(** Scenario A: a video with a manual transcript is summarised from the
    joined snippets. *)
Example agent_pipeline_video :
  agent_pipeline video_world (str "https://youtu.be/ABCDEFGHIJK")
  = (Return (Some (str "- notes")),
     [CallList (str "ABCDEFGHIJK"); CallFindManual languages; CallFetch;
      CallCompletion (groq_request (str "Hello world"))]).
Proof. vm_compute. reflexivity. Qed.

(** ** The statements at sample worlds *)




(** C8, the claim as first stated, fails: the article text is extracted, the
    request for the page's images fails, and the assembly raises; and it
    raises as well when the page is there and [urljoin] refuses one of its
    sources. *)
Lemma extract_article_with_images_harvest_failure :
  outcome (extract_article_text harvest_fails_world (str "https://example.com/article"))
  = Return (str "Body") /\
  outcome (extract_article_with_images harvest_fails_world
             (str "https://example.com/article"))
  = Raise ConnectionError /\
  outcome (extract_article_text bad_source_world (str "https://example.com/article"))
  = Return (str "Body") /\
  requests_get bad_source_world (str "https://example.com/article") = Return a_page /\
  outcome (extract_article_with_images bad_source_world
             (str "https://example.com/article"))
  = Raise ValueError.
Proof. repeat split; vm_compute; reflexivity. Qed.

Lemma extract_article_with_images_layout_witness :
  outcome (extract_article_with_images gallery_world (str "https://example.com/article"))
  = Return (str "Body" ++ images_header ++
            [nl] ++ str "text in image" ++
            [nl] ++ str "text in image" ++
            [nl] ++ str "text in image").
Proof.
  destruct (extract_article_with_images_layout
              gallery_world (str "https://example.com/article") (str "Body")
              [str "https://example.com/article/a.png";
               str "https://cdn.example.com/b.png";
               str "https://example.com/article/c.png"])
    as [_ [[ocr_texts [Hocr Hout]] _]]; [vm_compute; reflexivity .. |].
  rewrite Hout. f_equal. f_equal. f_equal.
  inversion Hocr as [| u1 t1 us1 ts1 H1 Hocr1]; subst.
  inversion Hocr1 as [| u2 t2 us2 ts2 H2 Hocr2]; subst.
  inversion Hocr2 as [| u3 t3 us3 ts3 H3 Hocr3]; subst.
  inversion Hocr3; subst.
  vm_compute in H1, H2, H3.
  injection H1 as <-. injection H2 as <-. injection H3 as <-.
  reflexivity.
Defined.

Lemma world_of_keeps_text transcripts article page imgs ocr completion :
  renderer_keeps_text (world_of transcripts article page imgs ocr completion).
Proof.
  intros pdf s H cl c Hcl Hc _. cbn in H. injection H as <-.
  apply in_concat. exists (cell_txt cl). split; [now apply in_map | exact Hc].
Qed.

Lemma create_pdf_lines_and_encoding_witness :
  outcome (create_pdf video_world (str "250" ++ [8211%N] ++ str "300 words"))
  = Raise UnicodeEncodeError.
Proof.
  refine (proj2 (proj2 (proj2 (proj2
            (create_pdf_lines_and_encoding
               video_world (str "250" ++ [8211%N] ++ str "300 words"))))) _ _).
  - apply world_of_keeps_text.
  - exists 8211%N. split; [vm_compute; tauto | reflexivity].
Defined.

Lemma create_pdf_cell_count_witness :
  length (pdf_cells (pdf_document (str "a" ++ [nl] ++ str "b" ++ [nl]))) = 3.
Proof.
  exact (proj1 (proj2 (create_pdf_cell_count
                         video_world (str "a" ++ [nl] ++ str "b" ++ [nl]) eq_refl))).
Defined.

(** A summary of three lines gives three cells, in order. *)
Example create_pdf_three_lines :
  pdf_cells (pdf_document (str "one" ++ [nl] ++ str "two" ++ [nl] ++ str "three"))
  = [line_cell (str "one"); line_cell (str "two"); line_cell (str "three")].
Proof. vm_compute. reflexivity. Qed.

(** Content of 7001 characters is sent as its first 7000. *)
Example summarize_with_groq_long :
  trace (summarize_with_groq video_world
           (repeat (ch "a") (N.to_nat 7000) ++ [ch "b"]))
  = [CallCompletion (groq_request (repeat (ch "a") (N.to_nat 7000)))].
Proof. vm_compute. reflexivity. Qed.

(** The recognised text comes back trimmed; a failed download gives the
    empty string. *)
Example ocr_from_image_url_samples :
  outcome (ocr_from_image_url gallery_world (str "https://example.com/a.png"))
  = Return (str "text in image") /\
  outcome (ocr_from_image_url harvest_fails_world (str "https://example.com/a.png"))
  = Return [].
Proof. split; vm_compute; reflexivity. Qed.

(** * Further properties *)

(** ** Identifiers of the usual URL shapes *)

Lemma after_marker_app_none (s tail : pystr) :
  2 <= length s -> after_marker s = None -> after_marker (s ++ tail) = None.
Proof.
  destruct s as [|c1 [|c2 s]]; cbn [length]; try lia. intros _.
  cbn [after_marker app].
  destruct (N.eqb c1 (ch "v")); [| destruct (N.eqb c1 (ch "/")); [discriminate | reflexivity]].
  destruct (N.eqb c2 (ch "=")); [discriminate | reflexivity].
Qed.

Lemma after_marker_app_some (s s1 tail : pystr) :
  after_marker s = Some s1 -> after_marker (s ++ tail) = Some (s1 ++ tail).
Proof.
  destruct s as [|c1 t]; [discriminate |]. cbn [after_marker app].
  destruct (N.eqb c1 (ch "v")).
  - destruct t as [|c2 rest]; [discriminate |]. cbn [app].
    destruct (N.eqb c2 (ch "=")); [| discriminate].
    now intros H; injection H as <-.
  - destruct (N.eqb c1 (ch "/")); [| discriminate].
    now intros H; injection H as <-.
Qed.

Lemma forallb_firstn_app (f : codepoint -> bool) (n : nat) (s tail : pystr) :
  forallb f (firstn n s) = false -> forallb f (firstn n (s ++ tail)) = false.
Proof.
  revert s; induction n as [|n IH]; intros s; [discriminate |].
  destruct s as [|x s]; [discriminate |]. cbn [firstn app forallb].
  destruct (f x); [apply IH | reflexivity].
Qed.

Lemma blocked_sound (s tail : pystr) :
  2 <= length s -> blocked s = true -> id_at (s ++ tail) = None.
Proof.
  unfold blocked, id_at. intros Hlen.
  destruct (after_marker s) as [s1 |] eqn:E.
  - rewrite (after_marker_app_some s s1 tail E). intros H.
    apply negb_true_iff in H. unfold take11.
    rewrite (forallb_firstn_app _ _ _ tail H). now rewrite andb_false_r.
  - now rewrite (after_marker_app_none s tail Hlen E).
Qed.

(** After a prefix in which no identifier can start, the identifier that
    follows the marker is the one found. *)
Lemma get_video_id_after_clear_prefix (pre m id rest : pystr) :
  marker m -> clear_before pre m = true ->
  length id = 11 -> forallb is_id_char id = true ->
  get_video_id (pre ++ m ++ id ++ rest) = Some id.
Proof.
  intros Hm Hclear Hlen Hid. rewrite get_video_id_first_id.
  induction pre as [|c t IH].
  - cbn [app].
    assert (E : id_at (m ++ id ++ rest) = Some id).
    { apply id_at_iff. now exists m, rest. }
    destruct (m ++ id ++ rest); cbn [first_id]; now rewrite E.
  - cbn [clear_before] in Hclear. apply andb_true_iff in Hclear.
    destruct Hclear as [Hb Hclear].
    assert (E : id_at ((c :: t) ++ m ++ id ++ rest) = None).
    { rewrite app_assoc. apply blocked_sound; [| exact Hb].
      rewrite length_app. cbn [length].
      destruct Hm as [-> | ->]; cbn; lia. }
    cbn [app first_id] in *. rewrite E. now apply IH.
Qed.

(** X1: for the usual shapes of a video link, whatever follows the
    identifier: a watch link, a short link, an embed link and a shorts link
    give the 11 characters after "v=" or after the last "/". *)
Theorem get_video_id_usual_links (id rest : pystr) :
  length id = 11 -> forallb is_id_char id = true ->
  get_video_id (str "https://www.youtube.com/watch?v=" ++ id ++ rest) = Some id /\
  get_video_id (str "https://youtu.be/" ++ id ++ rest) = Some id /\
  get_video_id (str "https://www.youtube.com/embed/" ++ id ++ rest) = Some id /\
  get_video_id (str "https://www.youtube.com/shorts/" ++ id ++ rest) = Some id.
Proof.
  intros Hlen Hid. repeat split.
  - apply (get_video_id_after_clear_prefix
             (str "https://www.youtube.com/watch?") (str "v=") id rest);
      [now left | vm_compute; reflexivity | exact Hlen | exact Hid].
  - apply (get_video_id_after_clear_prefix
             (str "https://youtu.be") (str "/") id rest);
      [now right | vm_compute; reflexivity | exact Hlen | exact Hid].
  - apply (get_video_id_after_clear_prefix
             (str "https://www.youtube.com/embed") (str "/") id rest);
      [now right | vm_compute; reflexivity | exact Hlen | exact Hid].
  - apply (get_video_id_after_clear_prefix
             (str "https://www.youtube.com/shorts") (str "/") id rest);
      [now right | vm_compute; reflexivity | exact Hlen | exact Hid].
Qed.

Lemma get_video_id_usual_links_witness :
  get_video_id (str "https://www.youtube.com/watch?v=dQw4w9WgXcQ&t=42s")
  = Some (str "dQw4w9WgXcQ").
Proof.
  exact (proj1 (get_video_id_usual_links (str "dQw4w9WgXcQ") (str "&t=42s")
                  eq_refl eq_refl)).
Defined.

(** ** Requests of the article path *)

Lemma extract_article_text_gets (w : World) (url : pystr) :
  filter is_get (trace (extract_article_text w url)) = [] /\
  filter is_completion (trace (extract_article_text w url)) = [].
Proof.
  unfold extract_article_text, trace, bind, call.
  destruct (article_download w url) as [html | e]; [| now split].
  destruct (article_parse w html); now split.
Qed.

Lemma extract_image_urls_trace (w : World) (url : pystr) :
  trace (extract_image_urls w url) = [CallGet url].
Proof.
  unfold extract_image_urls, trace, bind, call, pure, ret.
  destruct (requests_get w url) as [resp | e]; [| reflexivity].
  destruct (find_all_img w (resp_text resp)) as [imgs | e]; [| reflexivity].
  destruct (for_each (img_step w url) imgs []); reflexivity.
Qed.

Lemma ocr_from_image_url_gets (w : World) (img_url : pystr) :
  filter is_get (trace (ocr_from_image_url w img_url)) = [CallGet img_url] /\
  filter is_completion (trace (ocr_from_image_url w img_url)) = [].
Proof.
  unfold ocr_from_image_url, trace, try_except, bind, call, ret.
  destruct (requests_get w img_url) as [resp | e]; [| now split].
  destruct (image_open w (resp_content resp)) as [img | e]; [| now split].
  destruct (image_to_string w img); now split.
Qed.

Lemma ocr_loop_gets (w : World) (image_urls : list pystr) (ocr_text : pystr) :
  filter is_get (trace (ocr_loop w image_urls ocr_text)) = map CallGet image_urls /\
  filter is_completion (trace (ocr_loop w image_urls ocr_text)) = [].
Proof.
  revert ocr_text; induction image_urls as [|u urls IH]; intros ocr_text.
  - now split.
  - cbn [ocr_loop map]. rewrite trace_bind, !filter_app.
    destruct (ocr_from_image_url_gets w u) as [Hg Hc].
    destruct (ocr_from_image_url_returns w u) as [t Ht].
    rewrite Hg, Hc, Ht.
    destruct (IH (ocr_text ++ [nl] ++ t)) as [IHg IHc].
    rewrite IHg, IHc. now split.
Qed.

(** X2: when the article cannot be downloaded or parsed, the assembly raises
    that same exception and stops there: the page is not requested for its
    images and nothing is read from any image. *)
Theorem extract_article_with_images_article_failure
    (w : World) (url : pystr) (e : pyexc) :
  outcome (extract_article_text w url) = Raise e ->
  outcome (extract_article_with_images w url) = Raise e /\
  trace (extract_article_with_images w url) = trace (extract_article_text w url) /\
  (trace (extract_article_with_images w url) = [CallArticleDownload url] \/
   trace (extract_article_with_images w url) = [CallArticleDownload url; CallArticleParse]).
Proof.
  intros H. unfold extract_article_with_images.
  rewrite outcome_bind, trace_bind, H, app_nil_r.
  split; [reflexivity |]. split; [reflexivity |].
  unfold extract_article_text, trace, bind, call.
  destruct (article_download w url) as [html | e0]; [| now left].
  destruct (article_parse w html); now right.
Qed.

Lemma extract_article_with_images_article_failure_witness :
  outcome (extract_article_with_images video_world (str "https://example.com/article"))
  = Raise ConnectionError /\
  trace (extract_article_with_images video_world (str "https://example.com/article"))
  = [CallArticleDownload (str "https://example.com/article")].
Proof.
  destruct (extract_article_with_images_article_failure
              video_world (str "https://example.com/article") ConnectionError eq_refl)
    as [Hout [Htrace _]].
  split; [exact Hout | rewrite Htrace; reflexivity].
Defined.

(** X3: the assembly requests the page once and then each harvested image
    once, in harvest order, and nothing else with [requests.get]: never more
    than four requests, whatever the page holds. *)
Theorem extract_article_with_images_requests (w : World) (url : pystr) :
  length (filter is_get (trace (extract_article_with_images w url))) <= 4 /\
  (forall txt image_urls,
     outcome (extract_article_text w url) = Return txt ->
     outcome (extract_image_urls w url) = Return image_urls ->
     filter is_get (trace (extract_article_with_images w url))
     = CallGet url :: map CallGet image_urls) /\
  (forall e, outcome (extract_article_text w url) = Raise e ->
     filter is_get (trace (extract_article_with_images w url)) = []) /\
  (forall txt e,
     outcome (extract_article_text w url) = Return txt ->
     outcome (extract_image_urls w url) = Raise e ->
     filter is_get (trace (extract_article_with_images w url)) = [CallGet url]).
Proof.
  assert (Hgets :
    filter is_get (trace (extract_article_with_images w url))
    = match outcome (extract_article_text w url) with
      | Raise _ => []
      | Return _ =>
          match outcome (extract_image_urls w url) with
          | Raise _ => [CallGet url]
          | Return urls => CallGet url :: map CallGet urls
          end
      end).
  { unfold extract_article_with_images.
    rewrite trace_bind, filter_app, (proj1 (extract_article_text_gets w url)).
    destruct (outcome (extract_article_text w url)) as [txt | e]; [| reflexivity].
    rewrite trace_bind, filter_app, extract_image_urls_trace.
    destruct (outcome (extract_image_urls w url)) as [urls | e]; [| reflexivity].
    rewrite trace_bind, filter_app, (proj1 (ocr_loop_gets w urls [])).
    destruct (outcome (ocr_loop w urls [])); cbn; now rewrite app_nil_r. }
  split.
  { rewrite Hgets.
    destruct (outcome (extract_article_text w url)); [| cbn; lia].
    pose proof (extract_image_urls_at_most_three w url) as H3.
    destruct (outcome (extract_image_urls w url)); cbn [length]; [| lia].
    rewrite length_map. lia. }
  split; [intros txt urls H1 H2; now rewrite Hgets, H1, H2 |].
  split; [intros e H1; now rewrite Hgets, H1 |].
  intros txt e H1 H2. now rewrite Hgets, H1, H2.
Qed.

Lemma extract_article_with_images_requests_witness :
  filter is_get (trace (extract_article_with_images
                          gallery_world (str "https://example.com/article")))
  = [CallGet (str "https://example.com/article");
     CallGet (str "https://example.com/article/a.png");
     CallGet (str "https://cdn.example.com/b.png");
     CallGet (str "https://example.com/article/c.png")].
Proof.
  rewrite (proj1 (proj2 (extract_article_with_images_requests
                           gallery_world (str "https://example.com/article")))
             (str "Body")
             [str "https://example.com/article/a.png";
              str "https://cdn.example.com/b.png";
              str "https://example.com/article/c.png"]);
    vm_compute; reflexivity.
Defined.

(** ** The pipeline, stage by stage *)

Lemma agent_pipeline_stages (w : World) (url : pystr) :
  agent_pipeline w url
  = (content <- content_stage w url ;;
     if negb (truthy content) then ret None
     else match content with
          | Some c => s <- summarize_with_groq w c ;; ret (Some s)
          | None => ret None
          end).
Proof. reflexivity. Qed.

Lemma content_stage_video (w : World) (url : pystr) :
  route_input url = str "youtube" ->
  content_stage w url = extract_youtube_transcript w url.
Proof. intros H. unfold content_stage. now rewrite H. Qed.

Lemma content_stage_article (w : World) (url : pystr) :
  route_input url = str "article" ->
  content_stage w url = (c <- extract_article_with_images w url ;; ret (Some c)).
Proof. intros H. unfold content_stage. now rewrite H. Qed.

Lemma summarize_with_groq_outcome (w : World) (content : pystr) :
  outcome (summarize_with_groq w content)
  = match completions_create w (groq_request (firstn (N.to_nat 7000) content)) with
    | Raise e => Raise e
    | Return response =>
        match choices response with
        | c :: _ => Return (message_content c)
        | [] => Raise IndexError
        end
    end.
Proof.
  unfold summarize_with_groq, outcome, bind, call.
  destruct (completions_create w _) as [resp | e]; [| reflexivity].
  destruct (choices resp); reflexivity.
Qed.

(** A failure of the first stage is the failure of the run. *)
Lemma agent_pipeline_stage_raises (w : World) (url : pystr) (e : pyexc) :
  outcome (content_stage w url) = Raise e ->
  outcome (agent_pipeline w url) = Raise e /\
  trace (agent_pipeline w url) = trace (content_stage w url).
Proof.
  intros H. rewrite agent_pipeline_stages, outcome_bind, trace_bind, H.
  now rewrite app_nil_r.
Qed.

(** With content in hand, the run is one completion request on its first
    7000 characters, and its answer. *)
Lemma agent_pipeline_stage_content (w : World) (url c : pystr) :
  outcome (content_stage w url) = Return (Some c) -> c <> [] ->
  trace (agent_pipeline w url)
  = trace (content_stage w url)
    ++ [CallCompletion (groq_request (firstn (N.to_nat 7000) c))] /\
  outcome (agent_pipeline w url)
  = match completions_create w (groq_request (firstn (N.to_nat 7000) c)) with
    | Raise e => Raise e
    | Return response =>
        match choices response with
        | c0 :: _ => Return (Some (message_content c0))
        | [] => Raise IndexError
        end
    end.
Proof.
  intros H Hne. rewrite agent_pipeline_stages, outcome_bind, trace_bind, H.
  destruct c as [|x c]; [contradiction |]. cbn [truthy negb].
  rewrite outcome_bind, trace_bind, summarize_with_groq_trace,
    summarize_with_groq_outcome.
  split.
  - f_equal. destruct (completions_create w _) as [resp | e]; [| reflexivity].
    destruct (choices resp); reflexivity.
  - destruct (completions_create w _) as [resp | e]; [| reflexivity].
    destruct (choices resp); reflexivity.
Qed.

(** X4: a link that is routed to the video path and has no identifier in it
    ends the run with [None] and nothing at all is called: no transcript
    service, no completion request, and no error message either. *)
Theorem agent_pipeline_video_without_id (w : World) (url : pystr) :
  route_input url = str "youtube" -> get_video_id url = None ->
  agent_pipeline w url = (Return None, []).
Proof.
  intros Hroute Hid. unfold agent_pipeline. rewrite Hroute.
  change (pystr_eqb (str "youtube") (str "youtube")) with true. cbv iota.
  unfold extract_youtube_transcript. rewrite Hid. reflexivity.
Qed.

Lemma agent_pipeline_video_without_id_witness :
  agent_pipeline video_world (str "https://www.youtube.com/") = (Return None, []).
Proof.
  apply agent_pipeline_video_without_id; vm_compute; reflexivity.
Defined.

(** X5: on the video path, a transcript that is not empty leads to exactly
    one completion request, on the first 7000 characters of the transcript,
    after the calls of the transcript tool; the run returns the first
    choice of the answer, raises what the request raises, and raises
    [IndexError] on an answer without choices. *)
Theorem agent_pipeline_video_summarizes (w : World) (url t : pystr) :
  route_input url = str "youtube" ->
  outcome (extract_youtube_transcript w url) = Return (Some t) -> t <> [] ->
  trace (agent_pipeline w url)
  = trace (extract_youtube_transcript w url)
    ++ [CallCompletion (groq_request (firstn (N.to_nat 7000) t))] /\
  outcome (agent_pipeline w url)
  = match completions_create w (groq_request (firstn (N.to_nat 7000) t)) with
    | Raise e => Raise e
    | Return response =>
        match choices response with
        | c0 :: _ => Return (Some (message_content c0))
        | [] => Raise IndexError
        end
    end.
Proof.
  intros Hroute Ht Hne.
  rewrite <- (content_stage_video w url Hroute) in *.
  now apply agent_pipeline_stage_content.
Qed.

Lemma agent_pipeline_video_summarizes_witness :
  trace (agent_pipeline video_world (str "https://youtu.be/ABCDEFGHIJK"))
  = trace (extract_youtube_transcript video_world (str "https://youtu.be/ABCDEFGHIJK"))
    ++ [CallCompletion (groq_request (firstn (N.to_nat 7000) (str "Hello world")))].
Proof.
  apply (agent_pipeline_video_summarizes
           video_world (str "https://youtu.be/ABCDEFGHIJK") (str "Hello world")).
  - vm_compute; reflexivity.
  - vm_compute; reflexivity.
  - discriminate.
Defined.

(** X6: on the article path nothing is caught: an exception of the article
    download, of its parsing or of the request for the page ends the run
    with that exception, and no completion request is made. *)
Theorem agent_pipeline_article_failure (w : World) (url : pystr) (e : pyexc) :
  route_input url = str "article" ->
  outcome (extract_article_with_images w url) = Raise e ->
  outcome (agent_pipeline w url) = Raise e /\
  trace (agent_pipeline w url) = trace (extract_article_with_images w url) /\
  filter is_completion (trace (agent_pipeline w url)) = [].
Proof.
  intros Hroute H.
  assert (Hstage : outcome (content_stage w url) = Raise e).
  { rewrite (content_stage_article w url Hroute), outcome_bind. now rewrite H. }
  assert (Htrace : trace (content_stage w url) = trace (extract_article_with_images w url)).
  { rewrite (content_stage_article w url Hroute), trace_bind, H. apply app_nil_r. }
  destruct (agent_pipeline_stage_raises w url e Hstage) as [Hout Htr].
  rewrite Htr, Htrace. split; [exact Hout |]. split; [reflexivity |].
  unfold extract_article_with_images.
  rewrite trace_bind, filter_app, (proj2 (extract_article_text_gets w url)).
  destruct (outcome (extract_article_text w url)) as [txt | e0]; [| reflexivity].
  rewrite trace_bind, filter_app, extract_image_urls_trace.
  destruct (outcome (extract_image_urls w url)) as [urls | e0]; [| reflexivity].
  rewrite trace_bind, filter_app, (proj2 (ocr_loop_gets w urls [])).
  destruct (outcome (ocr_loop w urls [])); reflexivity.
Qed.

Lemma agent_pipeline_article_failure_witness :
  outcome (agent_pipeline harvest_fails_world (str "https://example.com/article"))
  = Raise ConnectionError.
Proof.
  apply (agent_pipeline_article_failure
           harvest_fails_world (str "https://example.com/article") ConnectionError);
    vm_compute; reflexivity.
Defined.

Lemma extract_youtube_transcript_no_completion (w : World) (url : pystr) :
  filter is_completion (trace (extract_youtube_transcript w url)) = [].
Proof.
  unfold extract_youtube_transcript, trace, try_except_Exception, try_except,
    bind, call, ret.
  destruct (get_video_id url) as [[|x v] |]; try reflexivity.
  destruct (yt_list w (x :: v)) as [tl | e];
    [| destruct (exc_is_Exception e); reflexivity].
  destruct (find_manually_created_transcript tl languages) as [tr | e0].
  - destruct (fetch tr) as [snippets | e];
      [reflexivity | destruct (exc_is_Exception e); reflexivity].
  - destruct (find_generated_transcript tl languages) as [tr | e];
      [| destruct (exc_is_Exception e); reflexivity].
    destruct (fetch tr) as [snippets | e];
      [reflexivity | destruct (exc_is_Exception e); reflexivity].
Qed.

Lemma extract_article_with_images_no_completion (w : World) (url : pystr) :
  filter is_completion (trace (extract_article_with_images w url)) = [].
Proof.
  unfold extract_article_with_images.
  rewrite trace_bind, filter_app, (proj2 (extract_article_text_gets w url)).
  destruct (outcome (extract_article_text w url)) as [txt | e0]; [| reflexivity].
  rewrite trace_bind, filter_app, extract_image_urls_trace.
  destruct (outcome (extract_image_urls w url)) as [urls | e0]; [| reflexivity].
  rewrite trace_bind, filter_app, (proj2 (ocr_loop_gets w urls [])).
  destruct (outcome (ocr_loop w urls [])); reflexivity.
Qed.

Lemma content_stage_no_completion (w : World) (url : pystr) :
  filter is_completion (trace (content_stage w url)) = [].
Proof.
  unfold content_stage. destruct (pystr_eqb (route_input url) (str "youtube")).
  - apply extract_youtube_transcript_no_completion.
  - rewrite trace_bind, filter_app, extract_article_with_images_no_completion.
    destruct (outcome (extract_article_with_images w url)); reflexivity.
Qed.

(** X7: a run makes at most one completion request, on either path and
    whatever the services answer: none when it returns [None], and when it
    returns a summary exactly one, on the first 7000 characters of the
    content of the routed path. *)
Theorem agent_pipeline_one_request (w : World) (url : pystr) :
  length (filter is_completion (trace (agent_pipeline w url))) <= 1 /\
  (outcome (agent_pipeline w url) = Return None ->
   filter is_completion (trace (agent_pipeline w url)) = []) /\
  (forall s, outcome (agent_pipeline w url) = Return (Some s) ->
     exists c,
       outcome (content_stage w url) = Return (Some c) /\
       filter is_completion (trace (agent_pipeline w url))
       = [CallCompletion (groq_request (firstn (N.to_nat 7000) c))]).
Proof.
  rewrite agent_pipeline_stages, outcome_bind, trace_bind, filter_app,
    content_stage_no_completion.
  destruct (outcome (content_stage w url)) as [[[|x c] |] | e]; cbn [truthy negb app].
  - repeat split; cbn; try lia. intros s H; discriminate.
  - rewrite outcome_bind, trace_bind, summarize_with_groq_trace.
    assert (E : filter is_completion
                  ([CallCompletion (groq_request (firstn (N.to_nat 7000) (x :: c)))]
                   ++ match outcome (summarize_with_groq w (x :: c)) with
                      | Return a => trace (ret (Some a))
                      | Raise _ => []
                      end)
                = [CallCompletion (groq_request (firstn (N.to_nat 7000) (x :: c)))]).
    { destruct (outcome (summarize_with_groq w (x :: c))); reflexivity. }
    rewrite E. repeat split.
    + cbn; lia.
    + destruct (outcome (summarize_with_groq w (x :: c))); discriminate.
    + intros s _. now exists (x :: c).
  - repeat split; cbn; try lia. intros s H; discriminate.
  - repeat split; cbn; try lia; intros; discriminate.
Qed.



Lemma extract_article_with_images_content (w : World) (url txt : pystr)
    (image_urls : list pystr) :
  outcome (extract_article_text w url) = Return txt ->
  outcome (extract_image_urls w url) = Return image_urls ->
  exists ocr_text,
    outcome (extract_article_with_images w url)
    = Return (txt ++ images_header ++ ocr_text).
Proof.
  intros Htxt Himgs.
  destruct (ocr_loop_returns w image_urls []) as [ts [_ Hout]].
  eexists. unfold extract_article_with_images.
  rewrite outcome_bind, Htxt, outcome_bind, Himgs, outcome_bind, Hout.
  reflexivity.
Qed.

(** X9: the article text comes first in the content and the content is cut
    at 7000 characters, so for an article of 7000 characters or more the
    completion request holds the first 7000 characters of the article and
    nothing of the header or of the text read from its images. *)
Theorem agent_pipeline_long_article (w : World) (url txt : pystr)
    (image_urls : list pystr) :
  route_input url = str "article" ->
  outcome (extract_article_text w url) = Return txt ->
  outcome (extract_image_urls w url) = Return image_urls ->
  N.to_nat 7000 <= length txt ->
  trace (agent_pipeline w url)
  = trace (extract_article_with_images w url)
    ++ [CallCompletion (groq_request (firstn (N.to_nat 7000) txt))].
Proof.
  intros Hroute Htxt Himgs Hlen.
  destruct (extract_article_with_images_content w url txt image_urls Htxt Himgs)
    as [ocr_text Hout].
  assert (Hstage : outcome (content_stage w url)
                   = Return (Some (txt ++ images_header ++ ocr_text))).
  { rewrite (content_stage_article w url Hroute), outcome_bind. now rewrite Hout. }
  assert (Htrace : trace (content_stage w url) = trace (extract_article_with_images w url)).
  { rewrite (content_stage_article w url Hroute), trace_bind, Hout. apply app_nil_r. }
  destruct (agent_pipeline_stage_content w url _ Hstage) as [Htr _].
  { intros E. apply (f_equal (@length _)) in E.
    rewrite !length_app in E. cbn in E. lia. }
  rewrite Htr, Htrace, firstn_app.
  replace (N.to_nat 7000 - length txt) with 0 by lia.
  cbn [firstn]. now rewrite app_nil_r.
Qed.

Lemma agent_pipeline_long_article_witness :
  trace (agent_pipeline
           (world_of (fun _ => Raise TranscriptsDisabled)
                     (Return (repeat (ch "a") (N.to_nat 7000) ++ str "tail"))
                     (fun _ => Return a_page) [img_tag (str "a.png")]
                     (Return (str "text in image")) (Return a_completion))
           (str "https://example.com/article"))
  = trace (extract_article_with_images
             (world_of (fun _ => Raise TranscriptsDisabled)
                       (Return (repeat (ch "a") (N.to_nat 7000) ++ str "tail"))
                       (fun _ => Return a_page) [img_tag (str "a.png")]
                       (Return (str "text in image")) (Return a_completion))
             (str "https://example.com/article"))
    ++ [CallCompletion
          (groq_request
             (firstn (N.to_nat 7000) (repeat (ch "a") (N.to_nat 7000) ++ str "tail")))].
Proof.
  apply (agent_pipeline_long_article _ _ _
           [str "https://example.com/article/a.png"]).
  - vm_compute; reflexivity.
  - vm_compute; reflexivity.
  - vm_compute; reflexivity.
  - rewrite length_app, repeat_length. lia.
Defined.

(** ** The script *)

Lemma ui_outcome_bind {A B} (m : UI A) (f : A -> UI B) :
  ui_outcome (ui_bind m f)
  = match ui_outcome m with
    | Return a => ui_outcome (f a)
    | Raise e => Raise e
    end.
Proof.
  unfold ui_outcome, ui_bind. destruct m as [[a | e] t]; simpl; [| reflexivity].
  now destruct (f a).
Qed.

Lemma ui_trace_bind {A B} (m : UI A) (f : A -> UI B) :
  ui_trace (ui_bind m f)
  = ui_trace m ++ match ui_outcome m with
                  | Return a => ui_trace (f a)
                  | Raise _ => []
                  end.
Proof.
  unfold ui_outcome, ui_trace, ui_bind. destruct m as [[a | e] t]; simpl.
  - now destruct (f a).
  - now rewrite app_nil_r.
Qed.

Lemma backend_calls_app (t1 t2 : list ui_event) :
  backend_calls (t1 ++ t2) = backend_calls t1 ++ backend_calls t2.
Proof. apply flat_map_app. Qed.

Lemma backend_calls_lift (t : list event) : backend_calls (map Backend t) = t.
Proof.
  induction t as [|e t IH]; [reflexivity |].
  change (backend_calls (map Backend (e :: t)))
    with (e :: backend_calls (map Backend t)).
  now rewrite IH.
Qed.

Lemma show_thumbnail_cases (user_link : pystr) :
  ui_outcome (show_thumbnail user_link) = Return tt /\
  ui_trace (show_thumbnail user_link)
  = if contains (str "youtube.com") user_link || contains (str "youtu.be") user_link
    then match get_video_id user_link with
         | Some v => [StImage (thumbnail_url v) 450]
         | None => []
         end
    else [].
Proof.
  unfold show_thumbnail.
  destruct user_link as [|x l]; [now split |].
  cbn [truthy andb].
  destruct (contains (str "youtube.com") (x :: l) || contains (str "youtu.be") (x :: l));
    [| now split].
  cbv zeta. destruct (get_video_id (x :: l)) as [id |] eqn:E; [| now split].
  apply get_video_id_length in E. destruct id; [discriminate | now split].
Qed.

(** What a run draws before the click is looked at. *)
Lemma script_stages (w : World) (user_link : pystr) (clicked : bool) :
  ui_outcome (script w user_link clicked)
  = (if clicked then ui_outcome (on_click w user_link) else Return tt) /\
  ui_trace (script w user_link clicked)
  = ui_trace page_head ++ ui_trace (show_thumbnail user_link)
    ++ [StButton ([128204%N] ++ str " Get Detailed Notes")]
    ++ (if clicked then ui_trace (on_click w user_link) else []).
Proof.
  destruct (show_thumbnail_cases user_link) as [Hout _].
  unfold script, page_head, ui_outcome, ui_trace, ui_bind, draw, ui_ret in *.
  destruct (show_thumbnail user_link) as [r t]. cbn [fst] in Hout. subst r.
  destruct clicked; cbn [fst snd app].
  - destruct (on_click w user_link) as [r' t']. cbn [fst snd app].
    split; reflexivity.
  - split; reflexivity.
Qed.

Lemma on_click_blank (w : World) (user_link : pystr) :
  strip user_link = [] ->
  on_click w user_link = (Return tt, [StWarning warning_message]).
Proof. intros H. unfold on_click. now rewrite H. Qed.

(** A click on a link that is not blank: the spinner, the calls of the
    pipeline, and then what its result asks for. *)
Lemma on_click_run (w : World) (user_link : pystr) :
  strip user_link <> [] ->
  ui_outcome (on_click w user_link)
  = match outcome (agent_pipeline w user_link) with
    | Raise e => Raise e
    | Return (Some (x :: notes)) =>
        match outcome (create_pdf w (x :: notes)) with
        | Return _ => Return tt
        | Raise e => Raise e
        end
    | Return _ => Return tt
    end /\
  ui_trace (on_click w user_link)
  = StSpinner spinner_text
    :: map Backend (trace (agent_pipeline w user_link))
    ++ match outcome (agent_pipeline w user_link) with
       | Raise _ => []
       | Return (Some (x :: notes)) => notes_events w (x :: notes)
       | Return _ => [Backend (StError no_content_message)]
       end.
Proof.
  intros Hlink. unfold on_click, notes_events.
  destruct (pystr_eqb (strip user_link) []) eqn:E;
    [apply pystr_eqb_eq in E; contradiction |].
  unfold ui_outcome, ui_trace, outcome, trace, ui_bind, lift, draw, ui_ret.
  destruct (agent_pipeline w user_link) as [[[[|x notes] |] | e] t];
    cbn [fst snd truthy app]; try (split; reflexivity).
  - destruct (create_pdf w (x :: notes)) as [[d | e] t2]; cbn [fst snd app];
      split; try reflexivity.
    now rewrite app_nil_r.
  - split; [reflexivity | now rewrite app_nil_r].
Qed.

Lemma script_trace (w : World) (user_link : pystr) (clicked : bool) :
  ui_trace (script w user_link clicked)
  = drawn_before_click user_link
    ++ (if clicked then ui_trace (on_click w user_link) else []).
Proof.
  rewrite (proj2 (script_stages w user_link clicked)).
  unfold drawn_before_click. now rewrite <- !app_assoc.
Qed.

Lemma drawn_before_click_calls (user_link : pystr) :
  backend_calls (drawn_before_click user_link) = [].
Proof.
  unfold drawn_before_click. rewrite !backend_calls_app.
  rewrite (proj2 (show_thumbnail_cases user_link)).
  destruct (contains (str "youtube.com") user_link || contains (str "youtu.be") user_link);
    [destruct (get_video_id user_link) |]; reflexivity.
Qed.

(** X10: a run without a click, or with a click on a blank link (empty or
    only whitespace), ends normally and calls nothing: not the pipeline, no
    external service, no export; the click on a blank link draws the
    warning, and that is the last thing drawn. *)
Theorem script_calls_nothing (w : World) (user_link : pystr) (clicked : bool) :
  clicked = false \/ strip user_link = [] ->
  ui_outcome (script w user_link clicked) = Return tt /\
  backend_calls (ui_trace (script w user_link clicked)) = [] /\
  (clicked = true ->
   ui_trace (script w user_link clicked)
   = drawn_before_click user_link ++ [StWarning warning_message]).
Proof.
  intros H. rewrite script_trace, (proj1 (script_stages w user_link clicked)),
    backend_calls_app, drawn_before_click_calls.
  destruct clicked.
  - destruct H as [H | H]; [discriminate |].
    rewrite (on_click_blank w user_link H). repeat split.
  - repeat split. intros E; discriminate.
Qed.

Lemma script_calls_nothing_witness :
  backend_calls (ui_trace (script video_world (str "   ") true)) = [].
Proof.
  apply (script_calls_nothing video_world (str "   ") true).
  right. vm_compute. reflexivity.
Defined.

Lemma notes_events_no_image (w : World) (notes image : pystr) (width : N) :
  ~ In (StImage image width) (notes_events w notes).
Proof.
  unfold notes_events. intros H.
  destruct H as [H | [H | H]]; try discriminate.
  cbn [app] in H. apply in_app_iff in H. destruct H as [H | H].
  - apply in_map_iff in H. destruct H as [e [He _]]. discriminate.
  - destruct (outcome (create_pdf w notes)); [| contradiction].
    destruct H as [H | []]. discriminate.
Qed.

Lemma on_click_no_image (w : World) (user_link image : pystr) (width : N) :
  ~ In (StImage image width) (ui_trace (on_click w user_link)).
Proof.
  destruct (strip user_link) as [|c s] eqn:E.
  - rewrite (on_click_blank w user_link E). intros [H | []]. discriminate.
  - assert (Hne : strip user_link <> []) by (rewrite E; discriminate).
    rewrite (proj2 (on_click_run w user_link Hne)).
    intros [H | H]; [discriminate |].
    apply in_app_iff in H. destruct H as [H | H].
    + apply in_map_iff in H. destruct H as [e [He _]]. discriminate.
    + destruct (outcome (agent_pipeline w user_link)) as [[[|x notes] |] | e].
      * destruct H as [H | []]. discriminate.
      * now apply notes_events_no_image in H.
      * destruct H as [H | []]. discriminate.
      * contradiction.
Qed.

(** X11: a thumbnail is drawn exactly when the link contains "youtube.com"
    or "youtu.be" and has an identifier in it, click or no click; it is the
    image "https://img.youtube.com/vi/<id>/0.jpg" at width 450, and no other
    image is ever drawn. *)
Theorem script_thumbnail (w : World) (user_link : pystr) (clicked : bool)
    (image : pystr) (width : N) :
  In (StImage image width) (ui_trace (script w user_link clicked)) <->
  (has_substring (str "youtube.com") user_link \/
   has_substring (str "youtu.be") user_link) /\
  exists id, get_video_id user_link = Some id /\
             image = thumbnail_url id /\ width = 450%N.
Proof.
  rewrite script_trace. unfold drawn_before_click, has_substring.
  rewrite <- !contains_iff, <- orb_true_iff.
  rewrite !in_app_iff, (proj2 (show_thumbnail_cases user_link)).
  split.
  - intros [[H | [H | H]] | H].
    + unfold page_head, ui_trace, ui_bind, draw in H. cbn [snd app] in H.
      destruct H as [H | [H | [H | [H | []]]]]; discriminate.
    + destruct (contains (str "youtube.com") user_link
                || contains (str "youtu.be") user_link); [| contradiction].
      split; [reflexivity |].
      destruct (get_video_id user_link) as [id |]; [| contradiction].
      destruct H as [H | []]. injection H as <- <-. now exists id.
    + destruct H as [H | []]. discriminate.
    + destruct clicked; [| contradiction].
      now apply on_click_no_image in H.
  - intros [Hc [id [Hid [-> ->]]]]. left. right. left. rewrite Hc, Hid. now left.
Qed.

Lemma script_thumbnail_witness :
  In (StImage (thumbnail_url (str "ABCDEFGHIJK")) 450)
     (ui_trace (script video_world (str "https://youtu.be/ABCDEFGHIJK") false)).
Proof.
  apply (proj2 (script_thumbnail video_world (str "https://youtu.be/ABCDEFGHIJK")
                  false (thumbnail_url (str "ABCDEFGHIJK")) 450)).
  split.
  - right. exists (str "https://"), (str "/ABCDEFGHIJK"). reflexivity.
  - exists (str "ABCDEFGHIJK"). repeat split.
Defined.

Lemma create_pdf_rejects (w : World) (summary : pystr) (c : codepoint) :
  renderer_keeps_text w -> In c summary -> is_latin1 c = false ->
  exists e, outcome (create_pdf w summary) = Raise e.
Proof.
  intros Hkeep Hin Hc. unfold create_pdf, outcome, bind, call.
  destruct (pdf_output w (pdf_document summary)) as [s | e] eqn:E;
    [| now exists e].
  assert (Hne : c <> nl) by (intros ->; discriminate).
  destruct (split_keeps_chars nl c summary Hin Hne) as [line [Hl Hx]].
  assert (Hs : In c s).
  { apply (Hkeep _ _ E (line_cell line) c); [| exact Hx | exact Hc].
    rewrite pdf_document_cells. now apply in_map. }
  rewrite (encode_latin1_rejects s c Hs Hc). now exists UnicodeEncodeError.
Qed.

(** The events of a click that runs the pipeline, before its result is
    looked at. *)
Lemma script_run_trace (w : World) (user_link : pystr) :
  strip user_link <> [] ->
  ui_trace (script w user_link true)
  = drawn_before_click user_link
    ++ [StSpinner spinner_text]
    ++ map Backend (trace (agent_pipeline w user_link))
    ++ match outcome (agent_pipeline w user_link) with
       | Raise _ => []
       | Return (Some (x :: notes)) => notes_events w (x :: notes)
       | Return _ => [Backend (StError no_content_message)]
       end.
Proof.
  intros H. rewrite script_trace, (proj2 (on_click_run w user_link H)).
  reflexivity.
Qed.

(** X12: after a click on a link that is not blank, notes that the pipeline
    returns and the export turns into bytes are shown under the heading and
    offered as "notes.pdf" (application/pdf) holding exactly those bytes;
    the export is called once, on the document of the notes, and the
    button is the last thing drawn. *)
Theorem script_offers_pdf (w : World) (user_link notes : pystr) (pdf_data : list N) :
  strip user_link <> [] ->
  outcome (agent_pipeline w user_link) = Return (Some notes) -> notes <> [] ->
  outcome (create_pdf w notes) = Return pdf_data ->
  ui_outcome (script w user_link true) = Return tt /\
  ui_trace (script w user_link true)
  = drawn_before_click user_link
    ++ [StSpinner spinner_text]
    ++ map Backend (trace (agent_pipeline w user_link))
    ++ [StMarkdown notes_heading; StWrite notes;
        Backend (CallPdfOutput (pdf_document notes));
        StDownloadButton download_label pdf_data (str "notes.pdf")
                         (str "application/pdf")].
Proof.
  intros Hlink Hrun Hne Hpdf.
  rewrite (script_run_trace w user_link Hlink),
    (proj1 (script_stages w user_link true)),
    (proj1 (on_click_run w user_link Hlink)), Hrun.
  destruct notes as [|x notes]; [contradiction |].
  unfold notes_events. rewrite Hpdf, create_pdf_trace. split; reflexivity.
Qed.

Lemma script_offers_pdf_witness :
  ui_outcome (script video_world (str "https://youtu.be/ABCDEFGHIJK") true)
  = Return tt.
Proof.
  apply (script_offers_pdf video_world (str "https://youtu.be/ABCDEFGHIJK")
           (str "- notes") (str "- notes")).
  - vm_compute. discriminate.
  - vm_compute. reflexivity.
  - discriminate.
  - vm_compute. reflexivity.
Defined.

(** X13: notes with a character outside latin-1 (with a renderer that keeps
    the text of the cells) are shown, and then the export raises and the run
    ends with that exception: the notes are on the page, the download button
    is never drawn. *)
Theorem script_export_failure (w : World) (user_link notes : pystr) (c : codepoint) :
  strip user_link <> [] ->
  outcome (agent_pipeline w user_link) = Return (Some notes) ->
  renderer_keeps_text w -> In c notes -> is_latin1 c = false ->
  (exists e, ui_outcome (script w user_link true) = Raise e) /\
  ui_trace (script w user_link true)
  = drawn_before_click user_link
    ++ [StSpinner spinner_text]
    ++ map Backend (trace (agent_pipeline w user_link))
    ++ [StMarkdown notes_heading; StWrite notes;
        Backend (CallPdfOutput (pdf_document notes))].
Proof.
  intros Hlink Hrun Hkeep Hin Hc.
  destruct (create_pdf_rejects w notes c Hkeep Hin Hc) as [e He].
  rewrite (script_run_trace w user_link Hlink),
    (proj1 (script_stages w user_link true)),
    (proj1 (on_click_run w user_link Hlink)), Hrun.
  destruct notes as [|x notes]; [contradiction |].
  unfold notes_events. rewrite He, create_pdf_trace.
  split; [now exists e | reflexivity].
Qed.

Lemma script_export_failure_witness :
  exists e,
    ui_outcome
      (script (world_of manual_transcripts (Raise ConnectionError)
                        (fun _ => Raise ConnectionError) [] (Return [])
                        (Return (mk_completion [mk_choice [8226%N; ch "a"]])))
              (str "https://youtu.be/ABCDEFGHIJK") true)
    = Raise e.
Proof.
  apply (script_export_failure
           (world_of manual_transcripts (Raise ConnectionError)
                     (fun _ => Raise ConnectionError) [] (Return [])
                     (Return (mk_completion [mk_choice [8226%N; ch "a"]])))
           (str "https://youtu.be/ABCDEFGHIJK") [8226%N; ch "a"] 8226%N).
  - vm_compute. discriminate.
  - vm_compute. reflexivity.
  - apply world_of_keeps_text.
  - now left.
  - reflexivity.
Defined.

(** X14: when the pipeline returns [None] or an empty summary, the run ends
    normally with the message "Could not extract content from this URL." as
    the last thing drawn; nothing is exported. *)
Theorem script_no_content (w : World) (user_link : pystr) :
  strip user_link <> [] ->
  outcome (agent_pipeline w user_link) = Return None \/
  outcome (agent_pipeline w user_link) = Return (Some []) ->
  ui_outcome (script w user_link true) = Return tt /\
  ui_trace (script w user_link true)
  = drawn_before_click user_link
    ++ [StSpinner spinner_text]
    ++ map Backend (trace (agent_pipeline w user_link))
    ++ [Backend (StError no_content_message)].
Proof.
  intros Hlink Hrun.
  rewrite (script_run_trace w user_link Hlink),
    (proj1 (script_stages w user_link true)),
    (proj1 (on_click_run w user_link Hlink)).
  destruct Hrun as [-> | ->]; split; reflexivity.
Qed.

Lemma script_no_content_witness :
  ui_trace (script listing_fails_world (str "https://youtu.be/ABCDEFGHIJK") true)
  = drawn_before_click (str "https://youtu.be/ABCDEFGHIJK")
    ++ [StSpinner spinner_text;
        Backend (CallList (str "ABCDEFGHIJK"));
        Backend (StError (transcript_error TranscriptsDisabled));
        Backend (StError no_content_message)].
Proof.
  rewrite (proj2 (script_no_content listing_fails_world
                    (str "https://youtu.be/ABCDEFGHIJK")
                    ltac:(vm_compute; discriminate)
                    ltac:(left; vm_compute; reflexivity))).
  vm_compute. reflexivity.
Defined.

(** X15: an exception that leaves the pipeline (a failed article download,
    a failed completion request) is not caught by the script: the run ends
    with it right after the calls of the pipeline, and neither notes nor a
    message are drawn. *)
Theorem script_pipeline_failure (w : World) (user_link : pystr) (e : pyexc) :
  strip user_link <> [] ->
  outcome (agent_pipeline w user_link) = Raise e ->
  ui_outcome (script w user_link true) = Raise e /\
  ui_trace (script w user_link true)
  = drawn_before_click user_link
    ++ [StSpinner spinner_text]
    ++ map Backend (trace (agent_pipeline w user_link)).
Proof.
  intros Hlink Hrun.
  rewrite (script_run_trace w user_link Hlink),
    (proj1 (script_stages w user_link true)),
    (proj1 (on_click_run w user_link Hlink)), Hrun.
  split; [reflexivity | now rewrite app_nil_r].
Qed.

Lemma script_pipeline_failure_witness :
  ui_outcome (script harvest_fails_world (str "https://example.com/article") true)
  = Raise ConnectionError.
Proof.
  apply (script_pipeline_failure harvest_fails_world
           (str "https://example.com/article") ConnectionError).
  - vm_compute. discriminate.
  - vm_compute. reflexivity.
Defined.

(** ** More on the video path *)

Lemma extract_youtube_transcript_raises (w : World) (url : pystr) (e : pyexc) :
  outcome (extract_youtube_transcript w url) = Raise e ->
  exc_is_Exception e = false.
Proof.
  unfold extract_youtube_transcript, try_except_Exception.
  match goal with |- context [match ?b with (_, _) => _ end] =>
    destruct b as [[a | e'] t] end.
  - discriminate.
  - destruct (exc_is_Exception e') eqn:E.
    + unfold bind, call, ret, outcome. cbn. discriminate.
    + unfold outcome. cbn. intros H; injection H as <-. exact E.
Qed.

Lemma extract_youtube_transcript_lists_first (w : World) (url video_id : pystr) :
  get_video_id url = Some video_id ->
  exists calls,
    trace (extract_youtube_transcript w url) = CallList video_id :: calls.
Proof.
  intros Hid. rewrite (extract_youtube_transcript_with_id w url video_id Hid).
  unfold trace, try_except_Exception, try_except, bind, call, ret.
  destruct (yt_list w video_id) as [tl | e].
  2:{ destruct (exc_is_Exception e); cbn; eexists; reflexivity. }
  destruct (find_manually_created_transcript tl languages) as [tr | e0].
  - destruct (fetch tr) as [snippets | e];
      [| destruct (exc_is_Exception e)]; cbn; eexists; reflexivity.
  - destruct (find_generated_transcript tl languages) as [tr | e].
    2:{ destruct (exc_is_Exception e); cbn; eexists; reflexivity. }
    destruct (fetch tr) as [snippets | e];
      [| destruct (exc_is_Exception e)]; cbn; eexists; reflexivity.
Qed.

(** X16: a watch link or a short link, whatever follows the identifier,
    is routed to the video path and the first call of the run asks the
    transcript service for the transcripts of the identifier in the link. *)
Theorem agent_pipeline_usual_links (w : World) (id rest : pystr) :
  length id = 11 -> forallb is_id_char id = true ->
  (route_input (str "https://www.youtube.com/watch?v=" ++ id ++ rest) = str "youtube" /\
   exists calls,
     trace (agent_pipeline w (str "https://www.youtube.com/watch?v=" ++ id ++ rest))
     = CallList id :: calls) /\
  (route_input (str "https://youtu.be/" ++ id ++ rest) = str "youtube" /\
   exists calls,
     trace (agent_pipeline w (str "https://youtu.be/" ++ id ++ rest))
     = CallList id :: calls).
Proof.
  intros Hlen Hid.
  assert (Hrun : forall url,
            route_input url = str "youtube" -> get_video_id url = Some id ->
            exists calls, trace (agent_pipeline w url) = CallList id :: calls).
  { intros url Hroute Hget.
    destruct (extract_youtube_transcript_lists_first w url id Hget) as [calls Hc].
    rewrite agent_pipeline_stages, trace_bind, (content_stage_video w url Hroute), Hc.
    eexists. reflexivity. }
  split.
  - assert (Hroute : route_input (str "https://www.youtube.com/watch?v=" ++ id ++ rest)
                     = str "youtube").
    { unfold route_input.
      assert (E : contains (str "youtube.com")
                    (str "https://www.youtube.com/watch?v=" ++ id ++ rest) = true).
      { apply contains_iff.
        exists (str "https://www."), (str "/watch?v=" ++ id ++ rest). reflexivity. }
      now rewrite E. }
    split; [exact Hroute |]. apply (Hrun _ Hroute).
    apply (get_video_id_after_clear_prefix
             (str "https://www.youtube.com/watch?") (str "v=") id rest);
      [now left | vm_compute; reflexivity | exact Hlen | exact Hid].
  - assert (Hroute : route_input (str "https://youtu.be/" ++ id ++ rest) = str "youtube").
    { unfold route_input.
      assert (E : contains (str "youtu.be") (str "https://youtu.be/" ++ id ++ rest) = true).
      { apply contains_iff.
        exists (str "https://"), (str "/" ++ id ++ rest). reflexivity. }
      rewrite E. now rewrite orb_true_r. }
    split; [exact Hroute |]. apply (Hrun _ Hroute).
    apply (get_video_id_after_clear_prefix
             (str "https://youtu.be") (str "/") id rest);
      [now right | vm_compute; reflexivity | exact Hlen | exact Hid].
Qed.

Lemma agent_pipeline_usual_links_witness :
  exists calls,
    trace (agent_pipeline video_world (str "https://youtu.be/ABCDEFGHIJK?t=10"))
    = CallList (str "ABCDEFGHIJK") :: calls.
Proof.
  exact (proj2 (proj2 (agent_pipeline_usual_links
                         video_world (str "ABCDEFGHIJK") (str "?t=10")
                         eq_refl eq_refl))).
Defined.

(** X17: on the video path the transcript tool never lets an instance of
    [Exception] out, so when a run on that path ends with one, the completion
    request was made: the exception is the request's own or the
    [IndexError] of an answer without choices. *)
Theorem agent_pipeline_video_failure (w : World) (url : pystr) (e : pyexc) :
  route_input url = str "youtube" ->
  outcome (agent_pipeline w url) = Raise e -> exc_is_Exception e = true ->
  exists t,
    outcome (extract_youtube_transcript w url) = Return (Some t) /\
    trace (agent_pipeline w url)
    = trace (extract_youtube_transcript w url)
      ++ [CallCompletion (groq_request (firstn (N.to_nat 7000) t))] /\
    (completions_create w (groq_request (firstn (N.to_nat 7000) t)) = Raise e \/
     e = IndexError).
Proof.
  intros Hroute Hrun Hexc.
  pose proof (content_stage_video w url Hroute) as Hstage.
  destruct (outcome (extract_youtube_transcript w url)) as [[[|x t] |] | e0] eqn:Ht.
  - destruct (agent_pipeline_video_no_content w url Hroute (or_intror Ht)) as [H _].
    rewrite H in Hrun. discriminate.
  - exists (x :: t). split; [reflexivity |].
    rewrite <- Hstage in Ht.
    destruct (agent_pipeline_stage_content w url (x :: t) Ht) as [Htr Hout];
      [discriminate |].
    rewrite Hstage in Htr. split; [exact Htr |].
    rewrite Hout in Hrun.
    destruct (completions_create w _) as [resp | e1].
    + destruct (choices resp); [| discriminate].
      right. now injection Hrun.
    + left. now injection Hrun as ->.
  - destruct (agent_pipeline_video_no_content w url Hroute (or_introl Ht)) as [H _].
    rewrite H in Hrun. discriminate.
  - rewrite <- Hstage in Ht.
    destruct (agent_pipeline_stage_raises w url e0 Ht) as [H _].
    rewrite H in Hrun. injection Hrun as ->.
    rewrite Hstage in Ht. apply extract_youtube_transcript_raises in Ht.
    congruence.
Qed.

Lemma agent_pipeline_video_failure_witness :
  exists t,
    outcome (extract_youtube_transcript
               (world_of manual_transcripts (Raise ConnectionError)
                         (fun _ => Raise ConnectionError) [] (Return [])
                         (Raise ConnectionError))
               (str "https://youtu.be/ABCDEFGHIJK"))
    = Return (Some t).
Proof.
  destruct (agent_pipeline_video_failure
              (world_of manual_transcripts (Raise ConnectionError)
                        (fun _ => Raise ConnectionError) [] (Return [])
                        (Raise ConnectionError))
              (str "https://youtu.be/ABCDEFGHIJK") ConnectionError)
    as [t [Ht _]]; [vm_compute; reflexivity .. |].
  now exists t.
Defined.

(** ** More on the export *)

(** X18: every cell of the document is one line: its text holds no newline,
    and it is drawn 200 wide and 10 high with a line break after it. *)
Theorem pdf_document_single_lines (summary : pystr) :
  Forall (fun cl => ~ In nl (cell_txt cl) /\
                    cell_w cl = 200%N /\ cell_h cl = 10%N /\ cell_ln cl = true)
         (pdf_cells (pdf_document summary)).
Proof.
  rewrite pdf_document_cells. rewrite Forall_forall. intros cl Hcl.
  apply in_map_iff in Hcl. destruct Hcl as [line [<- Hl]].
  pose proof (split_no_sep nl summary) as Hno. rewrite Forall_forall in Hno.
  repeat split. exact (Hno line Hl).
Qed.
